(** * Restaurant voice assistant: session state, transcript hand-off and tools

    A shallow embedding of the dialogue core of the repository
    (assistant.py, shared_tools.py, error_handlers.py, manager.py and
    app/models/restaurant.py) together with the properties its specification
    states about it.

    Conventions of the embedding.
    - A Python [str] is a [string]; its characters are the code points
      below 256.
    - A Python [int] is a [Z]; a [float] amount of money is a rational [Q]
      (the only float arithmetic the code performs on amounts is
      [unit_price * quantity] and the sum of such products).
    - A tool is a function from the state it reads to its return value and
      the state it leaves; a Python exception is the [Raise] outcome.
    - The Firestore client, the clock and the uuid generator are outside
      the repository: the first is a record holding the documents written
      and a flag saying whether a write goes through, the other two are
      arguments. *)

From Stdlib Require Import ZArith QArith Ascii String.
From stdpp Require Import base strings list gmap pretty.

Open Scope Z_scope.

(** ** Python built-ins used by the code *)

Module Py.

(** Truth value of a [str]: false exactly for the empty string. *)
Definition truthy (s : string) : bool :=
  match s with
  | EmptyString => false
  | String _ _ => true
  end.

(** [str.isdigit] on one character.  Below 256 the digits are ['0']..['9']
    and the superscripts U+00B2, U+00B3, U+00B9. *)
Definition isdigit (c : ascii) : bool :=
  let n := nat_of_ascii c in
  ((48 <=? n)%nat && (n <=? 57)%nat)
  || (n =? 178)%nat || (n =? 179)%nat || (n =? 185)%nat.

(** [''.join(filter(p, s))]. *)
Fixpoint join_filter (p : ascii → bool) (s : string) : string :=
  match s with
  | EmptyString => EmptyString
  | String c rest =>
      if p c then String c (join_filter p rest) else join_filter p rest
  end.

(** [len(s)]. *)
Definition len (s : string) : Z := Z.of_nat (String.length s).

(** [s.startswith(p)]. *)
Definition startswith (s p : string) : bool := String.prefix p s.

(** Characters that [int(str)] strips from both ends. *)
Definition isspace (c : ascii) : bool :=
  let n := nat_of_ascii c in
  ((9 <=? n)%nat && (n <=? 13)%nat)
  || ((28 <=? n)%nat && (n <=? 32)%nat)
  || (n =? 133)%nat || (n =? 160)%nat.

Definition isdecimal (c : ascii) : bool :=
  let n := nat_of_ascii c in (48 <=? n)%nat && (n <=? 57)%nat.

Definition digit_value (c : ascii) : Z := Z.of_nat (nat_of_ascii c) - 48.

Fixpoint lstrip (s : string) : string :=
  match s with
  | EmptyString => EmptyString
  | String c rest => if isspace c then lstrip rest else s
  end.

(** Digits of a base-10 literal, most significant first; a single
    underscore is allowed between two digits.  [prev] tells whether the
    previous character was a digit. *)
Fixpoint digits_from (prev : bool) (acc : Z) (s : string) : option Z :=
  match s with
  | EmptyString => if prev then Some acc else None
  | String c rest =>
      if isdecimal c then digits_from true (10 * acc + digit_value c) rest
      else if isspace c then
        (if prev then
           match lstrip rest with
           | EmptyString => Some acc
           | String _ _ => None
           end
         else None)
      else if (nat_of_ascii c =? 95)%nat then
        (if prev then digits_from false acc rest else None)
      else None
  end.

(** [int(s)] for a [str] argument, base 10: [None] is [ValueError].  The
    interpreter's configurable cap on the number of digits is left out. *)
Definition int (s : string) : option Z :=
  match lstrip s with
  | String "+" rest => digits_from false 0 rest
  | String "-" rest => Z.opp <$> digits_from false 0 rest
  | t => digits_from false 0 t
  end.

End Py.

(** ** Outcomes and tool return values *)

Inductive exn := TypeError | ValueError.

Inductive outcome (A : Type) :=
| Ok (a : A)
| Raise (e : exn).
Arguments Ok {A} a.
Arguments Raise {A} e.

Definition bind {A B} (m : outcome A) (k : A → outcome B) : outcome B :=
  match m with
  | Ok a => k a
  | Raise e => Raise e
  end.

Notation "x ←! m ; k" := (bind m (fun x => k))
  (at level 100, m at next level, right associativity).

Fixpoint mapM {A B} (f : A → outcome B) (l : list A) : outcome (list B) :=
  match l with
  | [] => Ok []
  | a :: rest => b ←! f a; bs ←! mapM f rest; Ok (b :: bs)
  end.

(** The dialogue roles (the [Agent] subclasses of assistant.py). *)
Inductive AgentTag :=
| IntentClassifierAgent
| OrderAgent
| ReservationAgent
| ConfirmationAgent.

(** What a function tool hands back to the session: [None], a text for the
    model, or the agent to hand off to. *)
Inductive ToolOutput :=
| RNone
| RText (text : string)
| RAgent (next : AgentTag).

(** The session keeps its current agent unless the tool returned one. *)
Definition agent_after (current : AgentTag) (out : ToolOutput) : AgentTag :=
  match out with
  | RAgent next => next
  | _ => current
  end.

(** ** Data model (app/models/restaurant.py) *)

(** An entry of [UserData.current_order].  The list holds dicts; its only
    writer, [OrderAgent.add_item], stores exactly the keys ["item"] and
    ["quantity"], so [d.get('item', '')] is [item], [d.get('quantity', 1)] is
    [quantity] and [d.get('modifications', [])] is the empty list. *)
Record DraftLine := mkDraftLine {
  item : string;
  quantity : Z
}.

(** A document of the [orders] collection as far as the tools read it. *)
Record OrderDoc := mkOrderDoc {
  od_order_time : option string
}.

(** What [FirebaseManager.get_customer_data] returns for a known customer
    (an unknown one, or a failed lookup, gives the empty dict: [None]). *)
Record CustomerData := mkCustomerData {
  cd_name : option string;
  cd_loyalty_points : option Z;
  cd_recent_orders : list OrderDoc;
  cd_preferences : gmap string string
}.

Record UserData := mkUserData {
  customer_name : string;
  customer_phone : string;
  customer_email : string;
  current_order : list DraftLine;
  order_total : Q;
  special_instructions : string;
  reservation_date : string;
  reservation_time : string;
  party_size : Z;
  payment_method : string;
  credit_card_number : string;
  credit_card_expiry : string;
  credit_card_cvv : string;
  call_id : string;
  caller_number : string;
  intent : string;
  order_history : list OrderDoc;
  customer_preferences : gmap string string;
  loyalty_points : Z;
  authenticated : bool;
  session_id : string
}.

(** [UserData(call_id=..., caller_number=..., session_id=..., intent=...)]:
    every other field takes its declared default. *)
Definition UserData_init (call_id caller_number session_id intent : string)
  : UserData :=
  {| customer_name := ""; customer_phone := ""; customer_email := "";
     current_order := []; order_total := 0; special_instructions := "";
     reservation_date := ""; reservation_time := ""; party_size := 0;
     payment_method := "cash"; credit_card_number := "";
     credit_card_expiry := ""; credit_card_cvv := "";
     call_id := call_id; caller_number := caller_number; intent := intent;
     order_history := []; customer_preferences := ∅; loyalty_points := 0;
     authenticated := false; session_id := session_id |}.

(** Field updates ([context.userdata.f = v]). *)
Definition set_customer_name (v : string) (u : UserData) : UserData :=
  mkUserData v (customer_phone u) (customer_email u) (current_order u)
    (order_total u) (special_instructions u) (reservation_date u)
    (reservation_time u) (party_size u) (payment_method u)
    (credit_card_number u) (credit_card_expiry u) (credit_card_cvv u)
    (call_id u) (caller_number u) (intent u) (order_history u)
    (customer_preferences u) (loyalty_points u) (authenticated u)
    (session_id u).

Definition set_customer_phone (v : string) (u : UserData) : UserData :=
  mkUserData (customer_name u) v (customer_email u) (current_order u)
    (order_total u) (special_instructions u) (reservation_date u)
    (reservation_time u) (party_size u) (payment_method u)
    (credit_card_number u) (credit_card_expiry u) (credit_card_cvv u)
    (call_id u) (caller_number u) (intent u) (order_history u)
    (customer_preferences u) (loyalty_points u) (authenticated u)
    (session_id u).

Definition set_customer_email (v : string) (u : UserData) : UserData :=
  mkUserData (customer_name u) (customer_phone u) v (current_order u)
    (order_total u) (special_instructions u) (reservation_date u)
    (reservation_time u) (party_size u) (payment_method u)
    (credit_card_number u) (credit_card_expiry u) (credit_card_cvv u)
    (call_id u) (caller_number u) (intent u) (order_history u)
    (customer_preferences u) (loyalty_points u) (authenticated u)
    (session_id u).

Definition set_current_order (v : list DraftLine) (u : UserData) : UserData :=
  mkUserData (customer_name u) (customer_phone u) (customer_email u) v
    (order_total u) (special_instructions u) (reservation_date u)
    (reservation_time u) (party_size u) (payment_method u)
    (credit_card_number u) (credit_card_expiry u) (credit_card_cvv u)
    (call_id u) (caller_number u) (intent u) (order_history u)
    (customer_preferences u) (loyalty_points u) (authenticated u)
    (session_id u).

Definition set_reservation_date (v : string) (u : UserData) : UserData :=
  mkUserData (customer_name u) (customer_phone u) (customer_email u)
    (current_order u) (order_total u) (special_instructions u) v
    (reservation_time u) (party_size u) (payment_method u)
    (credit_card_number u) (credit_card_expiry u) (credit_card_cvv u)
    (call_id u) (caller_number u) (intent u) (order_history u)
    (customer_preferences u) (loyalty_points u) (authenticated u)
    (session_id u).

Definition set_reservation_time (v : string) (u : UserData) : UserData :=
  mkUserData (customer_name u) (customer_phone u) (customer_email u)
    (current_order u) (order_total u) (special_instructions u)
    (reservation_date u) v (party_size u) (payment_method u)
    (credit_card_number u) (credit_card_expiry u) (credit_card_cvv u)
    (call_id u) (caller_number u) (intent u) (order_history u)
    (customer_preferences u) (loyalty_points u) (authenticated u)
    (session_id u).

Definition set_party_size (v : Z) (u : UserData) : UserData :=
  mkUserData (customer_name u) (customer_phone u) (customer_email u)
    (current_order u) (order_total u) (special_instructions u)
    (reservation_date u) (reservation_time u) v (payment_method u)
    (credit_card_number u) (credit_card_expiry u) (credit_card_cvv u)
    (call_id u) (caller_number u) (intent u) (order_history u)
    (customer_preferences u) (loyalty_points u) (authenticated u)
    (session_id u).

Definition set_payment_method_field (v : string) (u : UserData) : UserData :=
  mkUserData (customer_name u) (customer_phone u) (customer_email u)
    (current_order u) (order_total u) (special_instructions u)
    (reservation_date u) (reservation_time u) (party_size u) v
    (credit_card_number u) (credit_card_expiry u) (credit_card_cvv u)
    (call_id u) (caller_number u) (intent u) (order_history u)
    (customer_preferences u) (loyalty_points u) (authenticated u)
    (session_id u).

(** The three history fields [update_customer_phone] fills together. *)
Definition set_history (prefs : gmap string string) (points : Z)
    (orders : list OrderDoc) (u : UserData) : UserData :=
  mkUserData (customer_name u) (customer_phone u) (customer_email u)
    (current_order u) (order_total u) (special_instructions u)
    (reservation_date u) (reservation_time u) (party_size u)
    (payment_method u) (credit_card_number u) (credit_card_expiry u)
    (credit_card_cvv u) (call_id u) (caller_number u) (intent u) orders
    prefs points (authenticated u) (session_id u).

(** [OrderItem]: a dataclass whose first four fields have no default, so
    the generated [__init__] raises [TypeError] when a call leaves one of
    them out.  An argument that the call does not pass is [None] here. *)
Module OrderItem.

Record t := mk {
  menu_item_id : string;
  menu_item_name : string;
  quantity : Z;
  unit_price : Q;
  modifications : list string
}.

Definition init (menu_item_id menu_item_name : option string)
    (quantity : option Z) (unit_price : option Q)
    (modifications : option (list string)) : outcome t :=
  match menu_item_id, menu_item_name, quantity, unit_price with
  | Some i, Some n, Some q, Some p =>
      Ok (mk i n q p (default [] modifications))
  | _, _, _, _ => Raise TypeError
  end.

Definition total_price (it : t) : Q := (unit_price it * inject_Z (quantity it))%Q.

End OrderItem.

(** [CustomerOrder]; a [datetime] is a count of microseconds. *)
Module CustomerOrder.

Record t := mk {
  id : string;
  customer_phone : string;
  customer_name : string;
  items : list OrderItem.t;
  order_time : Z;
  status : string;
  estimated_ready_time : Z;
  total_amount : Q;
  payment_method : string;
  special_instructions : string;
  call_id : string;
  agent_id : string
}.

(** [sum(item.total_price for item in items)]. *)
Definition sum_total_price (items : list OrderItem.t) : Q :=
  fold_left (fun acc it => (acc + OrderItem.total_price it)%Q) items 0%Q.

Definition minutes (n : Z) : Z := n * 60000000.

(** The generated [__init__] followed by [__post_init__], for a call that
    passes neither [estimated_ready_time] nor [total_amount]. *)
Definition init (id customer_phone customer_name : string)
    (items : list OrderItem.t) (order_time : Z)
    (status payment_method call_id agent_id special_instructions : string)
  : t :=
  let max_prep_time := Z.max 20 (Z.of_nat (length items) * 5) in
  mk id customer_phone customer_name items order_time status
     (order_time + minutes max_prep_time)
     (sum_total_price items)
     payment_method special_instructions call_id agent_id.

End CustomerOrder.

(** ** The store (manager.py) *)

Record MenuDoc := mkMenuDoc {
  m_name : string;
  m_price : Q;
  m_description : string;
  m_category : string
}.

Record ReservationDoc := mkReservationDoc {
  r_id : string;
  r_customer_name : string;
  r_customer_phone : string;
  r_reservation_date : string;
  r_reservation_time : string;
  r_party_size : Z;
  r_created_at : Z;
  r_status : string;
  r_call_id : string
}.

Module FirebaseManager.

(** [db_up] is the outcome of the next Firestore calls: a call made while
    it is [false] raises inside the manager.  [menu_items] is the menu
    cache, keyed by document id. *)
Record t := mk {
  db_up : bool;
  menu_items : gmap string MenuDoc;
  customers : gmap string CustomerData;
  orders : list CustomerOrder.t;
  reservations : list ReservationDoc
}.

(** Every exception is caught and turned into [False]; the best-effort
    bookkeeping of the customer record and of the analytics is left
    out. *)
Definition create_order (fb : t) (order : CustomerOrder.t) : bool * t :=
  if db_up fb then
    (true, mk (db_up fb) (menu_items fb) (customers fb)
              (orders fb ++ [order]) (reservations fb))
  else (false, fb).

Definition save_reservation (fb : t) (reservation_id : string) (now : Z)
    (u : UserData) : bool * t :=
  if db_up fb then
    let reservation_data :=
      mkReservationDoc reservation_id (customer_name u) (customer_phone u)
        (reservation_date u) (reservation_time u) (party_size u) now
        "confirmed" (call_id u) in
    (true, mk (db_up fb) (menu_items fb) (customers fb) (orders fb)
              (reservations fb ++ [reservation_data]))
  else (false, fb).

(** The empty dict, [None] here, for an unknown customer and for a
    failed lookup alike. *)
Definition get_customer_data (fb : t) (phone_number : string)
  : option CustomerData :=
  if db_up fb then customers fb !! phone_number else None.

End FirebaseManager.

(** ** Shared tools (shared_tools.py) and the SIP handler *)

(** [get_customer_data] catches its own exceptions and every agent has a
    [firebase] attribute, so the two fallback returns of the tool are not
    reached. *)
Definition update_customer_phone (phone : string) (fb : FirebaseManager.t)
    (u : UserData) : string * UserData :=
  let clean_phone := Py.join_filter Py.isdigit phone in
  let clean_phone :=
    if (Py.len clean_phone =? 10)%Z then "+1" +:+ clean_phone
    else if (Py.len clean_phone =? 11)%Z && Py.startswith clean_phone "1"
         then "+" +:+ clean_phone
         else clean_phone in
  let u := set_customer_phone clean_phone u in
  match FirebaseManager.get_customer_data fb clean_phone with
  | Some customer_data =>
      let u := set_history (cd_preferences customer_data)
                 (default 0 (cd_loyalty_points customer_data))
                 (cd_recent_orders customer_data) u in
      let u :=
        match cd_name customer_data with
        | Some name =>
            if negb (Py.truthy (customer_name u)) && Py.truthy name
            then set_customer_name name u else u
        | None => u
        end in
      let welcome_msg :=
        "Welcome back, " +:+ default "valued customer" (cd_name customer_data)
        +:+ "!" in
      let welcome_msg :=
        if (0 <? loyalty_points u)%Z
        then welcome_msg +:+ " I see you have " +:+ pretty (loyalty_points u)
             +:+ " loyalty points."
        else welcome_msg in
      let welcome_msg :=
        match order_history u with
        | last :: _ =>
            welcome_msg +:+ " Your last order was on "
            +:+ default "recently" (od_order_time last) +:+ "."
        | [] => welcome_msg
        end in
      (welcome_msg, u)
  | None =>
      ("Phone number updated to " +:+ clean_phone
       +:+ ". Welcome to our restaurant!", u)
  end.

Module SipCallHandler.

Definition _normalize_phone (phone : string) : string :=
  if negb (Py.truthy phone) then "unknown"
  else
    let clean := Py.join_filter Py.isdigit phone in
    if (Py.len clean =? 10)%Z then "+1" +:+ clean
    else if (Py.len clean =? 11)%Z && Py.startswith clean "1"
         then "+" +:+ clean
         else phone.

End SipCallHandler.

(** ** Transcript hand-off (BaseRestaurantAgent, assistant.py) *)

(** A chat item as the code reads it: [id], [type] and, for a message,
    [role]. *)
Record ChatItem := mkChatItem {
  id : string;
  type : string;
  role : string;
  content : string
}.

Module BaseRestaurantAgent.

(** [item.type in ["function_call", "function_call_output"]]. *)
Definition is_function_item (it : ChatItem) : bool :=
  (type it =? "function_call")%string
  || (type it =? "function_call_output")%string.

Definition _valid_item (keep_system_message keep_function_call : bool)
    (it : ChatItem) : bool :=
  if negb keep_system_message && (type it =? "message")%string
     && (role it =? "system")%string then false
  else if negb keep_function_call && is_function_item it then false
  else true.

(** The [for] loop over [reversed(items)]: [new_items] grows at its end
    and the length test runs after every item, kept or not. *)
Fixpoint collect (valid : ChatItem → bool) (keep_last_n_messages : Z)
    (reversed_items new_items : list ChatItem) : list ChatItem :=
  match reversed_items with
  | [] => new_items
  | it :: rest =>
      let new_items := if valid it then new_items ++ [it] else new_items in
      if keep_last_n_messages <=? Z.of_nat (length new_items)
      then new_items
      else collect valid keep_last_n_messages rest new_items
  end.

(** The [while] loop popping orphaned function items from the front. *)
Fixpoint drop_orphans (new_items : list ChatItem) : list ChatItem :=
  match new_items with
  | [] => []
  | it :: rest => if is_function_item it then drop_orphans rest else new_items
  end.

Definition _truncate_chat_ctx (items : list ChatItem)
    (keep_last_n_messages : Z)
    (keep_system_message keep_function_call : bool) : list ChatItem :=
  let new_items :=
    collect (_valid_item keep_system_message keep_function_call)
      keep_last_n_messages (reverse items) [] in
  drop_orphans (reverse new_items).

(** The merge step of [on_enter]: [target] is the entering agent's copy
    of its own items, [items_copy] the truncated items of the previous
    agent. *)
Definition merge (target items_copy : list ChatItem) : list ChatItem :=
  let existing_ids : gset string := list_to_set (id <$> target) in
  let items_copy :=
    filter (fun it => id it ∉ existing_ids) items_copy in
  target ++ items_copy.

(** [on_enter] up to the merge, for a previous agent whose items are
    [prev_items]. *)
Definition on_enter_merge (own_items prev_items : list ChatItem)
  : list ChatItem :=
  merge own_items (_truncate_chat_ctx prev_items 6 false true).

End BaseRestaurantAgent.

(** A plain message: a message whose role is not ["system"]. *)
Definition plain (it : ChatItem) : Prop :=
  type it = "message" ∧ role it ≠ "system".

(** The identities of a transcript, in order. *)
Definition ids (items : list ChatItem) : list string := id <$> items.

(** What the specification asks of [merge]: the appended items are the
    source items whose identity is absent from the target, in source order;
    the target is kept as a prefix; no identity occurs twice in the
    result. *)
Definition merge_as_specified (target source : list ChatItem) : Prop :=
  let merged := BaseRestaurantAgent.merge target source in
  merged = target ++ filter (fun it => id it ∉ ids target) source
  ∧ take (length target) merged = target
  ∧ NoDup (ids merged).

(** Ten plain messages, oldest first. *)
Definition ten_messages : list ChatItem :=
  (fun n : nat =>
     mkChatItem ("m" +:+ pretty n)
       "message" (if Nat.even n then "user" else "assistant")
       ("turn " +:+ pretty n)) <$> seq 0 10.

(** ** The role tools (assistant.py)

    [self.userdata] and [context.userdata] are the same object: every agent
    is built with the session's [UserData]. *)

Module OrderAgent.

Definition _handoff_if_done (u : UserData) : ToolOutput :=
  if Py.truthy (customer_name u) && Py.truthy (customer_phone u)
     && bool_decide (current_order u ≠ [])
  then RText "You may now confirm the order."
  else RNone.

Definition add_item (u : UserData) (item : string) (quantity : Z)
  : ToolOutput * UserData :=
  let u := set_current_order (current_order u ++ [mkDraftLine item quantity]) u in
  (_handoff_if_done u, u).

Definition set_payment_method (u : UserData) (method : string)
  : ToolOutput * UserData :=
  let u := set_payment_method_field method u in
  (_handoff_if_done u, u).

Definition finalize_order (u : UserData) : ToolOutput * UserData :=
  (RAgent ConfirmationAgent, u).

End OrderAgent.

Module ReservationAgent.

Definition _handoff_if_done (u : UserData) : ToolOutput :=
  if Py.truthy (customer_name u) && Py.truthy (customer_phone u)
     && Py.truthy (reservation_date u) && Py.truthy (reservation_time u)
     && (0 <? party_size u)%Z
  then RText "You can now use `confirm_reservation` to save this."
  else RNone.

Definition set_reservation_details (u : UserData) (date time : string)
    (party_size : Z) : ToolOutput * UserData :=
  let u := set_reservation_date date u in
  let u := set_reservation_time time u in
  let u := set_party_size party_size u in
  (_handoff_if_done u, u).

Definition confirm_reservation (u : UserData) : ToolOutput * UserData :=
  (RAgent ConfirmationAgent, u).

End ReservationAgent.

Module ConfirmationAgent.

Definition order_incomplete : string :=
  "I just need to get your name and phone number to complete this order.".
Definition order_saved : string :=
  "Perfect! Your order is all set. We'll have it ready for you soon!".
Definition reservation_incomplete : string :=
  "I just need a few more details to get your table reserved.".
Definition reservation_saved : string :=
  "Great! Your table is reserved. We're looking forward to seeing you!".
Definition apology : string :=
  "Oops, something went wrong on our end. Let me try that again for you.".

(** The keyword arguments of the [OrderItem(...)] call: no
    [menu_item_name], and the literal [0.0] for [unit_price]. *)
Definition order_item_of (item_data : DraftLine) : outcome OrderItem.t :=
  OrderItem.init (Some (item item_data)) None (Some (quantity item_data))
    (Some 0%Q) (Some []).

(** The body of the [try] block; [order_id] is the fresh uuid and [now]
    the clock reading.  [UserData] has no [agent_id] attribute, so the
    [getattr] default is taken. *)
Definition confirm_order_try (order_id : string) (now : Z)
    (fb : FirebaseManager.t) (u : UserData)
  : outcome (ToolOutput * FirebaseManager.t) :=
  if negb (Py.truthy (customer_name u) && Py.truthy (customer_phone u)
           && bool_decide (current_order u ≠ []))
  then Ok (RText order_incomplete, fb)
  else
    order_items ←! mapM order_item_of (current_order u);
    let order :=
      CustomerOrder.init order_id (customer_phone u) (customer_name u)
        order_items now "pending" (payment_method u) (call_id u) ""
        (special_instructions u) in
    let fb := (FirebaseManager.create_order fb order).2 in
    Ok (RText order_saved, fb).

Definition confirm_order (order_id : string) (now : Z)
    (fb : FirebaseManager.t) (u : UserData)
  : ToolOutput * UserData * FirebaseManager.t :=
  match confirm_order_try order_id now fb u with
  | Ok (out, fb') => (out, u, fb')
  | Raise _ => (RText apology, u, fb)
  end.

Definition confirm_reservation_try (reservation_id : string) (now : Z)
    (fb : FirebaseManager.t) (u : UserData)
  : outcome (ToolOutput * FirebaseManager.t) :=
  if negb (Py.truthy (customer_name u) && Py.truthy (customer_phone u)
           && Py.truthy (reservation_date u)
           && Py.truthy (reservation_time u)
           && (0 <? party_size u))
  then Ok (RText reservation_incomplete, fb)
  else
    let fb := (FirebaseManager.save_reservation fb reservation_id now u).2 in
    Ok (RText reservation_saved, fb).

Definition confirm_reservation (reservation_id : string) (now : Z)
    (fb : FirebaseManager.t) (u : UserData)
  : ToolOutput * UserData * FirebaseManager.t :=
  match confirm_reservation_try reservation_id now fb u with
  | Ok (out, fb') => (out, u, fb')
  | Raise _ => (RText apology, u, fb)
  end.

Definition field_mapping : gmap string string :=
  list_to_map
    [("name", "customer_name"); ("phone", "customer_phone");
     ("email", "customer_email"); ("date", "reservation_date");
     ("time", "reservation_time"); ("party_size", "party_size")].

(** [setattr(userdata, attr_name, value)] for a [str] value and the
    attribute names that [field_mapping] can yield. *)
Definition setattr (u : UserData) (attr_name value : string) : UserData :=
  if (attr_name =? "customer_name")%string then set_customer_name value u
  else if (attr_name =? "customer_phone")%string then set_customer_phone value u
  else if (attr_name =? "customer_email")%string then set_customer_email value u
  else if (attr_name =? "reservation_date")%string then set_reservation_date value u
  else if (attr_name =? "reservation_time")%string then set_reservation_time value u
  else u.

Definition correction_done (new_value : string) : string :=
  "Got it, changed to " +:+ new_value
  +:+ ". Does everything look right now?".
Definition correction_help : string :=
  "Just let me know what you'd like to change - your name, phone, date, time, or party size.".

(** No [try] here: the [ValueError] of [int(new_value)] leaves the tool. *)
Definition request_correction (u : UserData) (field new_value : string)
  : outcome (ToolOutput * UserData) :=
  match field_mapping !! field with
  | Some attr_name =>
      u ←! (if (field =? "party_size")%string
            then match Py.int new_value with
                 | Some n => Ok (set_party_size n u)
                 | None => Raise ValueError
                 end
            else Ok (setattr u attr_name new_value));
      Ok (RText (correction_done new_value), u)
  | None => Ok (RText correction_help, u)
  end.

Definition cancel_request : string :=
  "No problem! What else can I help you with?".

End ConfirmationAgent.

(** ** Draft-order mutations as data *)

Inductive Mutation :=
| AddItem (item : string) (quantity : Z)
| SetPaymentMethod (method : string).

Definition apply_mutation (u : UserData) (m : Mutation) : UserData :=
  match m with
  | AddItem item quantity => (OrderAgent.add_item u item quantity).2
  | SetPaymentMethod method => (OrderAgent.set_payment_method u method).2
  end.

(** The state after the mutations of [ms], applied in order. *)
Definition run (u : UserData) (ms : list Mutation) : UserData :=
  fold_left apply_mutation ms u.

(** Sum of [unit_price × quantity] over the draft, for unit prices that
    [price] assigns to the item references. *)
Definition line_items_sum (price : string → Q) (order : list DraftLine) : Q :=
  fold_left (fun acc l => (acc + price (item l) * inject_Z (quantity l))%Q)
    order 0%Q.

(** The unit price of a line before any resolution. *)
Definition unresolved_price (_ : string) : Q := 0%Q.

(** The unit price the menu cache of the store holds, 0 for an unknown
    reference. *)
Definition catalog_price (fb : FirebaseManager.t) (item : string) : Q :=
  default 0%Q (m_price <$> FirebaseManager.menu_items fb !! item).

(** ** Reference points of the properties *)

(** The phone rule in the words of the specification: strip the
    non-digits; ten digits get ["+1"] in front, eleven digits starting with
    1 get ["+"]; any other input is kept as it was given. *)
Definition phone_as_specified (phone : string) : string :=
  let digits := Py.join_filter Py.isdigit phone in
  if Py.len digits =? 10 then "+1" +:+ digits
  else if (Py.len digits =? 11) && Py.startswith digits "1"
       then "+" +:+ digits
       else phone.

(** The digits-only cleaning followed by the two prefix rules. *)
Definition cleaned (phone : string) : string :=
  let digits := Py.join_filter Py.isdigit phone in
  if Py.len digits =? 10 then "+1" +:+ digits
  else if (Py.len digits =? 11) && Py.startswith digits "1"
       then "+" +:+ digits
       else digits.

(** The phone that [update_customer_phone] leaves in the session. *)
Definition stored_phone (phone : string) (fb : FirebaseManager.t)
    (u : UserData) : string :=
  customer_phone (update_customer_phone phone fb u).2.

(** An empty store whose writes go through ([true]) or fail ([false]). *)
Definition empty_store (up : bool) : FirebaseManager.t :=
  FirebaseManager.mk up ∅ ∅ [] [].

(** A store whose menu cache prices a coffee at 3.50. *)
Definition coffee_store (up : bool) : FirebaseManager.t :=
  FirebaseManager.mk up
    {[ "Coffee" := mkMenuDoc "Coffee" (7 # 2) "Freshly brewed" "beverages" ]}
    ∅ [] [].

(** A session fresh from its constructor. *)
Definition fresh_session : UserData :=
  UserData_init "room-1" "web_user" "room-1" "incoming_call".

(** [UserData(order_total=total)]. *)
Definition session_with_total (total : Q) : UserData :=
  mkUserData "" "" "" [] total "" "" "" 0 "cash" "" "" "" "" "" "" [] ∅ 0
    false "".

(** The draft total agrees with the line items, for unit prices [price]. *)
Definition total_consistent (price : string → Q) (u : UserData) : Prop :=
  (order_total u == line_items_sum price (current_order u))%Q.

(** Sam, reachable at +15551234567, has ordered one coffee. *)
Definition sam_order_session : UserData :=
  run (set_customer_phone "+15551234567"
         (set_customer_name "Sam" fresh_session))
    [AddItem "Coffee" 1].

(** Sam has asked for a table for two. *)
Definition sam_reservation_session : UserData :=
  (ReservationAgent.set_reservation_details
     (set_customer_phone "+15551234567"
        (set_customer_name "Sam" fresh_session))
     "2025-06-01" "19:30" 2).2.

(** A character that no integer literal contains: neither a decimal digit,
    nor white space, nor a sign, nor an underscore. *)
Definition foreign (c : ascii) : Prop :=
  Py.isdecimal c = false ∧ Py.isspace c = false
  ∧ c ≠ "_"%char ∧ c ≠ "+"%char ∧ c ≠ "-"%char.

(** [c] occurs in [s]. *)
Fixpoint occurs (c : ascii) (s : string) : Prop :=
  match s with
  | EmptyString => False
  | String c' rest => c' = c ∨ occurs c rest
  end.

(** What the specification asks of [set_reservation_details] for a party
    size that is not positive: a text comes back and the three reservation
    fields keep their values. *)
Definition party_size_rejected (u : UserData) (date time : string)
    (size : Z) : Prop :=
  let r := ReservationAgent.set_reservation_details u date time size in
  (∃ text, r.1 = RText text)
  ∧ reservation_date r.2 = reservation_date u
  ∧ reservation_time r.2 = reservation_time u
  ∧ party_size r.2 = party_size u.

(** The items of a transcript that pass the filter of
    [_truncate_chat_ctx], in transcript order. *)
Definition valid_items (keep_system_message keep_function_call : bool)
    (items : list ChatItem) : list ChatItem :=
  filter
    (fun it =>
       BaseRestaurantAgent._valid_item keep_system_message keep_function_call
         it = true)
    items.

(** Every character of [s] is a digit in the sense of [str.isdigit]. *)
Definition only_digits (s : string) : Prop :=
  ∀ c, occurs c s → Py.isdigit c = true.

(** The two shapes the phone rule recognises, told from the digits. *)
Definition recognised (digits : string) : Prop :=
  Py.len digits = 10
  ∨ (Py.len digits = 11 ∧ Py.startswith digits "1" = true).

(** The draft lines that a sequence of mutations adds, in order. *)
Definition lines_of (ms : list Mutation) : list DraftLine :=
  omap
    (fun m =>
       match m with
       | AddItem item quantity => Some (mkDraftLine item quantity)
       | SetPaymentMethod _ => None
       end)
    ms.

(** The payment method after a sequence of mutations that starts from
    [method]: the argument of the last [set_payment_method] call. *)
Definition last_method (method : string) (ms : list Mutation) : string :=
  fold_left
    (fun acc m =>
       match m with
       | AddItem _ _ => acc
       | SetPaymentMethod method => method
       end)
    ms method.

(** The document that [save_reservation] writes for a session. *)
Definition reservation_doc_of (reservation_id : string) (now : Z)
    (u : UserData) : ReservationDoc :=
  mkReservationDoc reservation_id (customer_name u) (customer_phone u)
    (reservation_date u) (reservation_time u) (party_size u) now
    "confirmed" (call_id u).

(** ** Configuration (config.py) *)

Record AgentConfig := mkAgentConfig {
  openai_api_key : string;
  deepgram_api_key : string;
  cartesia_api_key : string;
  openai_model : string;
  cartesia_voice_id : option string;
  vad_model : string;
  firebase_service_account_path : string;
  sip_phone_number : option string;
  sip_trunk_address : option string;
  sip_username : option string;
  sip_password : option string;
  sip_outbound_trunk_id : option string
}.

(** [not os.getenv(key)]: the variable is unset or empty. *)
Definition unset_or_empty (v : option string) : bool :=
  match v with
  | None => true
  | Some s => negb (Py.truthy s)
  end.

(** [load_config]; the process environment is a map from variable names
    to values, and [os.getenv(key, d)] is [default d (env !! key)]. *)
Definition load_config (env : gmap string string) : outcome AgentConfig :=
  let openai_api_key := env !! "OPENAI_API_KEY" in
  let deepgram_api_key := env !! "DEEPGRAM_API_KEY" in
  let cartesia_api_key := env !! "CARTESIA_API_KEY" in
  if unset_or_empty openai_api_key then Raise ValueError
  else if unset_or_empty deepgram_api_key then Raise ValueError
  else if unset_or_empty cartesia_api_key then Raise ValueError
  else
    Ok (mkAgentConfig
          (default "" openai_api_key) (default "" deepgram_api_key)
          (default "" cartesia_api_key)
          (default "gpt-4o-mini" (env !! "OPENAI_MODEL"))
          (env !! "CARTESIA_VOICE_ID")
          "silero"
          (default "service.json" (env !! "FIREBASE_SERVICE_ACCOUNT_PATH"))
          (env !! "SIP_PHONE_NUMBER") (env !! "SIP_TRUNK_ADDRESS")
          (env !! "SIP_USERNAME") (env !! "SIP_PASSWORD")
          (env !! "SIP_OUTBOUND_TRUNK_ID")).

(** [validate_config]: [all] of the three keys. *)
Definition validate_config (config : AgentConfig) : bool :=
  forallb Py.truthy
    [openai_api_key config; deepgram_api_key config; cartesia_api_key config].

(** ** The session summary (UserData.summarize) *)

(** [sep.join(parts)]. *)
Fixpoint join (sep : string) (parts : list string) : string :=
  match parts with
  | [] => ""
  | [p] => p
  | p :: rest => p +:+ sep +:+ join sep rest
  end.

Definition new_customer : string := "New customer, no prior data".

(** The list that [summarize] builds; [format_2f] renders a float with
    the format [.2f]. *)
Definition summary_parts (format_2f : Q → string) (u : UserData)
  : list string :=
  (if Py.truthy (customer_name u)
   then ["Customer: " +:+ customer_name u] else [])
  ++ (if Py.truthy (customer_phone u)
      then ["Phone: " +:+ customer_phone u] else [])
  ++ (if bool_decide (current_order u ≠ [])
      then ["Current order: " +:+ pretty (length (current_order u))
            +:+ " items, $" +:+ format_2f (order_total u)]
      else [])
  ++ (if Py.truthy (reservation_date u) && Py.truthy (reservation_time u)
      then ["Reservation: " +:+ reservation_date u +:+ " at "
            +:+ reservation_time u +:+ " for " +:+ pretty (party_size u)]
      else [])
  ++ (if bool_decide (order_history u ≠ [])
      then ["Previous orders: " +:+ pretty (length (order_history u))]
      else [])
  ++ (if 0 <? loyalty_points u
      then ["Loyalty points: " +:+ pretty (loyalty_points u)] else []).

Definition summarize (format_2f : Q → string) (u : UserData) : string :=
  match summary_parts format_2f u with
  | [] => new_customer
  | parts => join "; " parts
  end.

(** Nothing of what the summary reports is known. *)
Definition nothing_known (u : UserData) : Prop :=
  customer_name u = "" ∧ customer_phone u = "" ∧ current_order u = []
  ∧ (reservation_date u = "" ∨ reservation_time u = "")
  ∧ order_history u = [] ∧ loyalty_points u ≤ 0.

(** A part never starts with the first letter of the marker. *)
Definition not_N (p : string) : Prop :=
  ∃ c rest, p = String c rest ∧ c ≠ "N"%char.

(** ** Regular expressions, as the [re] module matches them *)

Module Re.

Inductive t :=
| Void
| Eps
| Class (p : ascii → bool)
| Cat (r1 r2 : t)
| Alt (r1 r2 : t)
| Star (r : t).

Fixpoint nullable (r : t) : bool :=
  match r with
  | Void => false
  | Eps => true
  | Class _ => false
  | Cat r1 r2 => nullable r1 && nullable r2
  | Alt r1 r2 => nullable r1 || nullable r2
  | Star _ => true
  end.

(** The expression for what may follow a first character [c]. *)
Fixpoint deriv (c : ascii) (r : t) : t :=
  match r with
  | Void => Void
  | Eps => Void
  | Class p => if p c then Eps else Void
  | Cat r1 r2 =>
      if nullable r1 then Alt (Cat (deriv c r1) r2) (deriv c r2)
      else Cat (deriv c r1) r2
  | Alt r1 r2 => Alt (deriv c r1) (deriv c r2)
  | Star r => Cat (deriv c r) (Star r)
  end.

(** The whole of [s] matches [r]. *)
Fixpoint matches (r : t) (s : string) : bool :=
  match s with
  | EmptyString => nullable r
  | String c rest => matches (deriv c r) rest
  end.

(** [c], [x+], [x?], [x{2,}] and [x{n}]. *)
Definition chr (c : ascii) : t := Class (Ascii.eqb c).
Definition plus (r : t) : t := Cat r (Star r).
Definition opt (r : t) : t := Alt r Eps.
Definition at_least_two (r : t) : t := Cat r (Cat r (Star r)).
Fixpoint exactly (n : nat) (r : t) : t :=
  match n with
  | O => Eps
  | S n => Cat r (exactly n r)
  end.

(** [$] without the MULTILINE flag: the end of the string, or the
    position before a newline that ends the string. *)
Definition dollar : t := opt (chr "010").

(** [re.match("^" body "$", s)] is a match object. *)
Definition anchored (body : t) (s : string) : bool :=
  matches (Cat body dollar) s.

(** The strings of an expression. *)
Inductive lang : t → string → Prop :=
| lang_eps : lang Eps ""
| lang_class p c : p c = true → lang (Class p) (String c "")
| lang_cat r1 r2 s1 s2 :
    lang r1 s1 → lang r2 s2 → lang (Cat r1 r2) (s1 +:+ s2)
| lang_alt_l r1 r2 s : lang r1 s → lang (Alt r1 r2) s
| lang_alt_r r1 r2 s : lang r2 s → lang (Alt r1 r2) s
| lang_star_nil r : lang (Star r) ""
| lang_star_cons r s1 s2 :
    lang r s1 → lang (Star r) s2 → lang (Star r) (s1 +:+ s2).

End Re.

(** ** More string methods *)

Module PyStr.

(** [s.rstrip()] and [s.strip()]: the white space is that of
    [str.isspace]. *)
Fixpoint rstrip (s : string) : string :=
  match s with
  | EmptyString => EmptyString
  | String c rest =>
      match rstrip rest with
      | EmptyString => if Py.isspace c then EmptyString else String c ""
      | r => String c r
      end
  end.

Definition strip (s : string) : string := rstrip (Py.lstrip s).

(** [c.lower()]: the capital letters below 256 are A-Z, U+00C0-U+00D6 and
    U+00D8-U+00DE, each 32 below its small letter. *)
Definition lower_char (c : ascii) : ascii :=
  let n := nat_of_ascii c in
  if ((65 <=? n)%nat && (n <=? 90)%nat)
     || ((192 <=? n)%nat && (n <=? 214)%nat)
     || ((216 <=? n)%nat && (n <=? 222)%nat)
  then ascii_of_nat (n + 32) else c.

Fixpoint lower (s : string) : string :=
  match s with
  | EmptyString => EmptyString
  | String c rest => String (lower_char c) (lower rest)
  end.

(** Every character of [s] satisfies [p]. *)
Fixpoint all_in (p : ascii → bool) (s : string) : bool :=
  match s with
  | EmptyString => true
  | String c rest => p c && all_in p rest
  end.

End PyStr.

(** ** The email tool (shared_tools.py) and the validators *)

Module Email.

(** [[a-zA-Z]], [[a-zA-Z0-9._%+-]] and [[a-zA-Z0-9.-]]. *)
Definition letter (c : ascii) : bool :=
  let n := nat_of_ascii c in
  ((97 <=? n)%nat && (n <=? 122)%nat) || ((65 <=? n)%nat && (n <=? 90)%nat).

Definition local_char (c : ascii) : bool :=
  letter c || Py.isdecimal c
  || Ascii.eqb c "." || Ascii.eqb c "_" || Ascii.eqb c "%"
  || Ascii.eqb c "+" || Ascii.eqb c "-".

Definition domain_char (c : ascii) : bool :=
  letter c || Py.isdecimal c || Ascii.eqb c "." || Ascii.eqb c "-".

(** [[a-zA-Z0-9._%+-]+@[a-zA-Z0-9.-]+\.[a-zA-Z]{2,}], between [^] and
    [$]. *)
Definition email_pattern : Re.t :=
  Re.Cat (Re.plus (Re.Class local_char))
    (Re.Cat (Re.chr "@")
       (Re.Cat (Re.plus (Re.Class domain_char))
          (Re.Cat (Re.chr ".") (Re.at_least_two (Re.Class letter))))).

Definition invalid_email : string :=
  "That doesn't look like a valid email address. Could you try again?".

Definition update_customer_email (email : string) (u : UserData)
  : string * UserData :=
  if Re.anchored email_pattern (PyStr.strip email) then
    let u := set_customer_email (PyStr.lower (PyStr.strip email)) u in
    ("Email updated to " +:+ customer_email u, u)
  else (invalid_email, u).

(** [BaseRestaurantAgent._validate_email]. *)
Definition _validate_email (email : string) : bool :=
  Re.anchored email_pattern (PyStr.strip email).

(** An address in words: a local part, an at sign, a domain, a dot and a
    top-level name of two letters or more. *)
Definition well_formed (s : string) : Prop :=
  ∃ local domain tld,
    s = local +:+ "@" +:+ domain +:+ "." +:+ tld
    ∧ local ≠ "" ∧ PyStr.all_in local_char local = true
    ∧ domain ≠ "" ∧ PyStr.all_in domain_char domain = true
    ∧ (2 ≤ String.length tld)%nat ∧ PyStr.all_in letter tld = true.

End Email.

(** Not white space. *)
Definition nonspace (c : ascii) : bool := negb (Py.isspace c).

(** ** The remaining tools and the session around them *)

Definition set_intent (v : string) (u : UserData) : UserData :=
  mkUserData (customer_name u) (customer_phone u) (customer_email u)
    (current_order u) (order_total u) (special_instructions u)
    (reservation_date u) (reservation_time u) (party_size u)
    (payment_method u) (credit_card_number u) (credit_card_expiry u)
    (credit_card_cvv u) (call_id u) (caller_number u) v (order_history u)
    (customer_preferences u) (loyalty_points u) (authenticated u)
    (session_id u).

Definition set_special_instructions (v : string) (u : UserData) : UserData :=
  mkUserData (customer_name u) (customer_phone u) (customer_email u)
    (current_order u) (order_total u) v (reservation_date u)
    (reservation_time u) (party_size u) (payment_method u)
    (credit_card_number u) (credit_card_expiry u) (credit_card_cvv u)
    (call_id u) (caller_number u) (intent u) (order_history u)
    (customer_preferences u) (loyalty_points u) (authenticated u)
    (session_id u).

(** The other tools of shared_tools.py.  [title] stands for [str.title],
    whose results leave the code points below 256. *)
Module Shared.

Definition update_customer_name (title : string → string) (name : string)
    (u : UserData) : string * UserData :=
  let u := set_customer_name (title (PyStr.strip name)) u in
  ("Got it! I have your name as " +:+ customer_name u, u).

Definition add_special_instructions (instructions : string) (u : UserData)
  : string * UserData :=
  ("Added special instructions: " +:+ instructions,
   set_special_instructions instructions u).

Definition get_customer_summary (format_2f : Q → string) (u : UserData)
  : string :=
  summarize format_2f u.

Definition check_loyalty_status (u : UserData) : string :=
  if 0 <? loyalty_points u
  then "You have " +:+ pretty (loyalty_points u)
       +:+ " loyalty points available!"
  else "You don't have any loyalty points yet, but you'll start earning them with your next order!".

End Shared.

Module IntentClassifierAgent.

Definition intent_is_order (u : UserData) : ToolOutput * UserData :=
  (RAgent OrderAgent, set_intent "order" u).

Definition intent_is_reservation (u : UserData) : ToolOutput * UserData :=
  (RAgent ReservationAgent, set_intent "reservation" u).

End IntentClassifierAgent.

(** A call of a function tool with its arguments.  The identifier and the
    time of the two confirm tools are the uuid and the clock reading they
    draw. *)
Inductive ToolCall :=
| call_update_customer_name (name : string)
| call_update_customer_phone (phone : string)
| call_update_customer_email (email : string)
| call_add_special_instructions (instructions : string)
| call_get_customer_summary
| call_check_loyalty_status
| call_intent_is_order
| call_intent_is_reservation
| call_add_item (item : string) (quantity : Z)
| call_set_payment_method (method : string)
| call_finalize_order
| call_set_reservation_details (date time : string) (party_size : Z)
| call_confirm_reservation_draft
| call_confirm_order (order_id : string) (now : Z)
| call_confirm_reservation (reservation_id : string) (now : Z)
| call_request_correction (field new_value : string)
| call_cancel_request.

(** The tools an agent offers: the shared ones passed to every
    constructor, and the function tools of its own class.  [end_call], which
    deletes the room, ends the session and is not a step of it. *)
Definition offers (agent : AgentTag) (call : ToolCall) : bool :=
  match call with
  | call_update_customer_name _ | call_update_customer_phone _
  | call_update_customer_email _ | call_add_special_instructions _
  | call_get_customer_summary | call_check_loyalty_status => true
  | call_intent_is_order | call_intent_is_reservation =>
      match agent with IntentClassifierAgent => true | _ => false end
  | call_add_item _ _ | call_set_payment_method _ | call_finalize_order =>
      match agent with OrderAgent => true | _ => false end
  | call_set_reservation_details _ _ _ | call_confirm_reservation_draft =>
      match agent with ReservationAgent => true | _ => false end
  | call_confirm_order _ _ | call_confirm_reservation _ _
  | call_request_correction _ _ | call_cancel_request =>
      match agent with ConfirmationAgent => true | _ => false end
  end.

Record Session := mkSession {
  agent : AgentTag;
  userdata : UserData;
  store : FirebaseManager.t
}.

Section Invoke.

Variable title : string → string.
Variable format_2f : Q → string.

(** The tool's return value and the session data it leaves. *)
Definition invoke (call : ToolCall) (u : UserData) (fb : FirebaseManager.t)
  : outcome (ToolOutput * UserData * FirebaseManager.t) :=
  let text (r : string * UserData) := Ok (RText r.1, r.2, fb) in
  let keep (r : ToolOutput * UserData) := Ok (r.1, r.2, fb) in
  match call with
  | call_update_customer_name name =>
      text (Shared.update_customer_name title name u)
  | call_update_customer_phone phone => text (update_customer_phone phone fb u)
  | call_update_customer_email email =>
      text (Email.update_customer_email email u)
  | call_add_special_instructions instructions =>
      text (Shared.add_special_instructions instructions u)
  | call_get_customer_summary =>
      text (Shared.get_customer_summary format_2f u, u)
  | call_check_loyalty_status => text (Shared.check_loyalty_status u, u)
  | call_intent_is_order => keep (IntentClassifierAgent.intent_is_order u)
  | call_intent_is_reservation =>
      keep (IntentClassifierAgent.intent_is_reservation u)
  | call_add_item item quantity => keep (OrderAgent.add_item u item quantity)
  | call_set_payment_method method =>
      keep (OrderAgent.set_payment_method u method)
  | call_finalize_order => keep (OrderAgent.finalize_order u)
  | call_set_reservation_details date time party_size =>
      keep (ReservationAgent.set_reservation_details u date time party_size)
  | call_confirm_reservation_draft =>
      keep (ReservationAgent.confirm_reservation u)
  | call_confirm_order order_id now =>
      Ok (ConfirmationAgent.confirm_order order_id now fb u)
  | call_confirm_reservation reservation_id now =>
      Ok (ConfirmationAgent.confirm_reservation reservation_id now fb u)
  | call_request_correction field new_value =>
      r ←! ConfirmationAgent.request_correction u field new_value;
      Ok (r.1, r.2, fb)
  | call_cancel_request => text (ConfirmationAgent.cancel_request, u)
  end.

(** One tool call in a session.  A call of a tool that the current agent
    does not offer, and a call that raises, leave the session as it is: the
    framework answers the model with an error and goes on. *)
Definition step (s : Session) (call : ToolCall) : Session :=
  if offers (agent s) call then
    match invoke call (userdata s) (store s) with
    | Ok (out, u, fb) => mkSession (agent_after (agent s) out) u fb
    | Raise _ => s
    end
  else s.

Definition steps (s : Session) (calls : list ToolCall) : Session :=
  fold_left step calls s.

End Invoke.

(** How far a conversation has got. *)
Definition rank (a : AgentTag) : nat :=
  match a with
  | IntentClassifierAgent => 0
  | OrderAgent | ReservationAgent => 1
  | ConfirmationAgent => 2
  end.

(** The session data that a hand-off must carry over: everything but the
    intent tag. *)
Definition same_but_intent (u u' : UserData) : Prop :=
  set_intent "" u' = set_intent "" u.

(** What one tool may do to the session data. *)
Definition kept (u : UserData) (fb : FirebaseManager.t) (u' : UserData)
    (fb' : FirebaseManager.t) : Prop :=
  order_total u' = order_total u
  ∧ FirebaseManager.orders fb' = FirebaseManager.orders fb
  ∧ FirebaseManager.menu_items fb' = FirebaseManager.menu_items fb
  ∧ FirebaseManager.customers fb' = FirebaseManager.customers fb
  ∧ FirebaseManager.db_up fb' = FirebaseManager.db_up fb
  ∧ (length (FirebaseManager.reservations fb)
     ≤ length (FirebaseManager.reservations fb'))%nat.

(** [BaseRestaurantAgent._validate_phone]: the pattern
    [\+?1?[-.\s]?\(?[0-9]{3}\)?[-.\s]?[0-9]{3}[-.\s]?[0-9]{4}] between [^]
    and [$], matched against the stripped argument. *)
Module Phone.

(** [[-.\s]]. *)
Definition sep_char (c : ascii) : bool :=
  Ascii.eqb c "-" || Ascii.eqb c "." || Py.isspace c.

Definition digits (n : nat) : Re.t := Re.exactly n (Re.Class Py.isdecimal).

Definition phone_pattern : Re.t :=
  Re.Cat (Re.opt (Re.chr "+"))
    (Re.Cat (Re.opt (Re.chr "1"))
       (Re.Cat (Re.opt (Re.Class sep_char))
          (Re.Cat (Re.opt (Re.chr "("))
             (Re.Cat (digits 3)
                (Re.Cat (Re.opt (Re.chr ")"))
                   (Re.Cat (Re.opt (Re.Class sep_char))
                      (Re.Cat (digits 3)
                         (Re.Cat (Re.opt (Re.Class sep_char))
                            (digits 4))))))))).

Definition _validate_phone (phone : string) : bool :=
  Re.anchored phone_pattern (PyStr.strip phone).

End Phone.

(** ** The menu text (FirebaseManager.get_menu_text) *)

(** A document of the menu cache: a dict that may lack any of its keys. *)
Record MenuEntry := mkMenuEntry {
  e_name : option string;
  e_price : option Q;
  e_description : option string;
  e_category : option string
}.

Module Menu.

(** [item.get('category', 'other')]. *)
Definition category_of (e : MenuEntry) : string :=
  default "other" (e_category e).

(** One round of the first loop.  [menu_by_category] is a dict: a known
    key keeps its place and gets the item appended to its list, a new key
    goes to the end. *)
Fixpoint group_insert (category : string) (e : MenuEntry)
    (groups : list (string * list MenuEntry))
  : list (string * list MenuEntry) :=
  match groups with
  | [] => [(category, [e])]
  | (c, es) :: rest =>
      if decide (c = category) then (c, es ++ [e]) :: rest
      else (c, es) :: group_insert category e rest
  end.

(** The first loop, over [self.menu_items.values()] in dict order. *)
Definition menu_by_category (values : list MenuEntry)
  : list (string * list MenuEntry) :=
  fold_left (fun groups e => group_insert (category_of e) e groups) values [].

(** [menu_by_category[category]], if the key is there. *)
Fixpoint assoc (category : string) (groups : list (string * list MenuEntry))
  : option (list MenuEntry) :=
  match groups with
  | [] => None
  | (c, es) :: rest => if decide (c = category) then Some es else assoc category rest
  end.

Definition nl : string := String "010" "".

Definition concat (parts : list string) : string :=
  fold_right String.append "" parts.

(** The texts of all of [l], or the first failure. *)
Fixpoint traverse {A} (f : A → option string) (l : list A)
  : option (list string) :=
  match l with
  | [] => Some []
  | a :: rest =>
      match f a with
      | Some b =>
          match traverse f rest with
          | Some bs => Some (b :: bs)
          | None => None
          end
      | None => None
      end
  end.

Section Render.

(** [str.upper] and the text of a price in an f-string. *)
Variable upper : string → string.
Variable str_price : Q → string.

(** One line of the second loop; [None] is the [KeyError] of a missing
    key. *)
Definition render_item (e : MenuEntry) : option string :=
  match e_name e, e_price e, e_description e with
  | Some name, Some price, Some description =>
      Some ("- " +:+ name +:+ ": $" +:+ str_price price +:+ " - "
            +:+ description +:+ nl)
  | _, _, _ => None
  end.

Definition render_group (g : string * list MenuEntry) : option string :=
  match traverse render_item g.2 with
  | Some lines => Some (nl +:+ upper g.1 +:+ ":" +:+ nl +:+ concat lines)
  | None => None
  end.

Definition get_menu_text (values : list MenuEntry) : option string :=
  match values with
  | [] => Some "Menu currently unavailable"
  | _ =>
      match traverse render_group (menu_by_category values) with
      | Some blocks => Some (concat blocks)
      | None => None
      end
  end.

End Render.

(** The entry lacks a key that the text needs. *)
Definition incomplete (e : MenuEntry) : Prop :=
  e_name e = None ∨ e_price e = None ∨ e_description e = None.

End Menu.

(** What the groups hold for a category: its items, in cache order. *)
Definition of_category (c : string) (values : list MenuEntry)
  : option (list MenuEntry) :=
  match filter (fun e => Menu.category_of e = c) values with
  | [] => None
  | es => Some es
  end.

(** The groups built from the entries processed so far. *)
Definition grouped (processed : list MenuEntry)
    (groups : list (string * list MenuEntry)) : Prop :=
  NoDup groups.*1 ∧ ∀ c, Menu.assoc c groups = of_category c processed.

(** * Properties *)

(** ** Transcript truncation *)

Section Truncate.
Import BaseRestaurantAgent.

Implicit Types (items l : list ChatItem) (it : ChatItem).

Lemma plain_valid ks kf it : plain it → _valid_item ks kf it = true.
Proof.
  intros [Ht Hr]. unfold _valid_item, is_function_item. rewrite Ht.
  apply String.eqb_neq in Hr. rewrite Hr. simpl.
  rewrite !andb_false_r. reflexivity.
Qed.

Lemma plain_not_function it : plain it → is_function_item it = false.
Proof. intros [Ht _]. unfold is_function_item. rewrite Ht. reflexivity. Qed.

Lemma drop_orphans_split l :
  ∃ dropped, l = dropped ++ drop_orphans l
             ∧ Forall (fun it => is_function_item it = true) dropped.
Proof.
  induction l as [|it rest IH]; simpl.
  - exists []. split; [reflexivity | constructor].
  - destruct (is_function_item it) eqn:E.
    + destruct IH as (d & Hd & Hall). exists (it :: d). split.
      * simpl. f_equal. exact Hd.
      * constructor; assumption.
    + exists []. split; [reflexivity | constructor].
Qed.

Lemma drop_orphans_head l :
  match drop_orphans l with
  | [] => True
  | it :: _ => is_function_item it = false
  end.
Proof.
  induction l as [|it rest IH]; simpl; [exact I |].
  destruct (is_function_item it) eqn:E; [exact IH | exact E].
Qed.

Lemma drop_orphans_id l :
  match l with [] => True | it :: _ => is_function_item it = false end →
  drop_orphans l = l.
Proof. destruct l as [|it rest]; simpl; [reflexivity |]. intros ->. reflexivity. Qed.

(** When every scanned item passes the filter, the loop takes items
    until [new_items] has [keep] of them. *)
Lemma collect_all_valid valid keep l acc :
  Forall (fun it => valid it = true) l →
  Z.of_nat (length acc) < keep →
  collect valid keep l acc
  = acc ++ take (Z.to_nat (keep - Z.of_nat (length acc))) l.
Proof.
  intros Hall. revert acc.
  induction Hall as [|it rest Hit _ IH]; intros acc Hlt; simpl.
  - rewrite take_nil, app_nil_r. reflexivity.
  - rewrite Hit. rewrite length_app. simpl length.
    destruct (Z.leb_spec keep (Z.of_nat (length acc + 1))) as [Hle|Hgt].
    + replace (Z.to_nat (keep - Z.of_nat (length acc))) with 1%nat by lia.
      reflexivity.
    + rewrite IH by (rewrite length_app; simpl; lia).
      rewrite length_app. simpl length.
      replace (Z.to_nat (keep - Z.of_nat (length acc)))
        with (S (Z.to_nat (keep - Z.of_nat (length acc + 1)))) by lia.
      simpl. rewrite <- app_assoc. reflexivity.
Qed.

(** On plain messages truncation is "the last [keep] items". *)
Lemma truncate_plain items keep ks kf :
  1 ≤ keep →
  Forall plain items →
  _truncate_chat_ctx items keep ks kf
  = drop (length items - Z.to_nat keep) items.
Proof.
  intros Hk Hall. unfold _truncate_chat_ctx.
  rewrite collect_all_valid.
  - simpl. rewrite Z.sub_0_r, take_reverse, reverse_involutive.
    apply drop_orphans_id.
    destruct (drop (length items - Z.to_nat keep) items) as [|it rest] eqn:E;
      [exact I |].
    apply plain_not_function.
    assert (Hin : it ∈ drop (length items - Z.to_nat keep) items)
      by (rewrite E; left).
    apply list_elem_of_lookup in Hin as [i Hi].
    rewrite lookup_drop in Hi.
    exact (proj1 (Forall_lookup _ _) Hall _ _ Hi).
  - apply Forall_reverse.
    eapply Forall_impl; [exact Hall |].
    intros it Hit. apply plain_valid. exact Hit.
  - simpl. lia.
Qed.

End Truncate.

(** C5. Whatever the transcript and the three parameters, the list that
    [_truncate_chat_ctx] returns does not start with a function call or a
    function-call output: it is the retained window minus its leading
    function items, and it may be empty. *)
Theorem truncate_never_starts_with_tool_item
    (items : list ChatItem) (keep_last_n_messages : Z)
    (keep_system_message keep_function_call : bool) :
  let result :=
    BaseRestaurantAgent._truncate_chat_ctx items keep_last_n_messages
      keep_system_message keep_function_call in
  let window :=
    reverse (BaseRestaurantAgent.collect
               (BaseRestaurantAgent._valid_item keep_system_message
                  keep_function_call)
               keep_last_n_messages (reverse items) []) in
  match result with
  | [] => True
  | first :: _ =>
      type first ≠ "function_call" ∧ type first ≠ "function_call_output"
  end
  ∧ ∃ dropped,
      window = dropped ++ result
      ∧ Forall (fun it => BaseRestaurantAgent.is_function_item it = true)
          dropped.
Proof.
  intros result window. split.
  - subst result. unfold BaseRestaurantAgent._truncate_chat_ctx.
    pose proof (drop_orphans_head window) as H. fold window.
    destruct (BaseRestaurantAgent.drop_orphans window) as [|first rest];
      [exact I |].
    unfold BaseRestaurantAgent.is_function_item in H.
    apply orb_false_elim in H as [H1 H2].
    split; apply String.eqb_neq; assumption.
  - apply drop_orphans_split.
Qed.

(** A window made only of function items is dropped whole. *)
Example truncate_may_be_empty :
  BaseRestaurantAgent._truncate_chat_ctx
    [mkChatItem "c1" "function_call" "" "lookup";
     mkChatItem "o1" "function_call_output" "" "none"] 6 false true = [].
Proof. reflexivity. Qed.

(** C6. Ten plain messages truncated with [keep_last_n_messages = 6] give
    exactly six items: the last six of the input, in their input order. *)
Theorem truncate_ten_plain_keeps_last_six
    (items : list ChatItem) (keep_system_message keep_function_call : bool) :
  length items = 10%nat →
  Forall plain items →
  let result :=
    BaseRestaurantAgent._truncate_chat_ctx items 6 keep_system_message
      keep_function_call in
  result = drop 4 items ∧ length result = 6%nat.
Proof.
  intros Hlen Hall result. subst result.
  rewrite truncate_plain by (try lia; assumption).
  rewrite Hlen. split; [reflexivity |].
  change (10 - Z.to_nat 6)%nat with 4%nat.
  rewrite length_drop. lia.
Qed.

Lemma truncate_ten_plain_keeps_last_six_witness :
  BaseRestaurantAgent._truncate_chat_ctx ten_messages 6 false false
  = drop 4 ten_messages
  ∧ length (BaseRestaurantAgent._truncate_chat_ctx ten_messages 6 false false)
    = 6%nat.
Proof.
  apply (truncate_ten_plain_keeps_last_six ten_messages false false).
  - reflexivity.
  - repeat constructor; discriminate.
Defined.

(** ** Transcript merge *)

Section Merge.
Import BaseRestaurantAgent.

Implicit Types (target source : list ChatItem).

(** The set lookup of the code is membership in the list of target
    identities. *)
Lemma merge_unfold target source :
  merge target source
  = target ++ filter (fun it => id it ∉ ids target) source.
Proof.
  unfold merge, ids. f_equal. apply list_filter_iff.
  intros it. rewrite elem_of_list_to_set. reflexivity.
Qed.

Lemma merge_prefix target source :
  take (length target) (merge target source) = target.
Proof. rewrite merge_unfold. apply take_app_length. Qed.

Lemma merge_appended_fresh target source it :
  it ∈ filter (fun it => id it ∉ ids target) source → id it ∉ ids target.
Proof. intros H. apply list_elem_of_filter in H. tauto. Qed.

Lemma merge_NoDup target source :
  NoDup (ids target) → NoDup (ids source) →
  NoDup (ids (merge target source)).
Proof.
  intros Ht Hs. rewrite merge_unfold. unfold ids. rewrite fmap_app.
  apply NoDup_app. split; [exact Ht |]. split.
  - intros x Hx Hx'. apply list_elem_of_fmap in Hx' as (it & -> & Hit).
    apply merge_appended_fresh in Hit. exact (Hit Hx).
  - apply (sublist_NoDup _ (id <$> source)); [exact Hs |].
    apply fmap_sublist, sublist_filter.
Qed.

End Merge.

(** C7 (amended). [merge] returns the target followed by the source items
    whose identity does not occur in the target, in source order; the target
    is kept unchanged as a prefix and no appended item carries an identity of
    the target.  The result is free of duplicate identities when the target
    and the source each are. *)
Theorem merge_appends_unseen_source_items (target source : list ChatItem) :
  let merged := BaseRestaurantAgent.merge target source in
  merged = target ++ filter (fun it => id it ∉ ids target) source
  ∧ take (length target) merged = target
  ∧ (∀ it, it ∈ drop (length target) merged → id it ∉ ids target)
  ∧ (NoDup (ids target) → NoDup (ids source) → NoDup (ids merged)).
Proof.
  intros merged. subst merged.
  split; [apply merge_unfold |].
  split; [apply merge_prefix |].
  split; [| apply merge_NoDup].
  intros it. rewrite merge_unfold, drop_app_length.
  apply merge_appended_fresh.
Qed.

Lemma merge_appends_unseen_source_items_witness :
  let a := mkChatItem "a" "message" "user" "hello" in
  let b := mkChatItem "b" "message" "assistant" "hi" in
  let c := mkChatItem "c" "message" "user" "a table for two" in
  NoDup (ids [a; b]) ∧ NoDup (ids [b; c])
  ∧ NoDup (ids (BaseRestaurantAgent.merge [a; b] [b; c])).
Proof.
  intros a b c.
  assert (Ht : NoDup (ids [a; b])) by (apply (bool_decide_unpack _); reflexivity).
  assert (Hs : NoDup (ids [b; c])) by (apply (bool_decide_unpack _); reflexivity).
  split; [exact Ht |]. split; [exact Hs |].
  destruct (merge_appends_unseen_source_items [a; b] [b; c])
    as (_ & _ & _ & H).
  exact (H Ht Hs).
Defined.

(** C7 as stated fails when the source itself repeats an identity: both
    copies are appended. *)
Lemma merge_repeated_source_identity_counterexample :
  let e := mkChatItem "m1" "message" "user" "one coffee" in
  ¬ merge_as_specified [] [e; e].
Proof.
  intros e (_ & _ & H).
  rewrite merge_unfold in H. vm_compute in H.
  apply NoDup_cons in H as [Hnotin _]. apply Hnotin. left.
Qed.

(** ** Phone normalisation *)

Section Phone.

Implicit Types (phone : string) (fb : FirebaseManager.t) (u : UserData).

(** The history lookup never touches the phone just stored. *)
Lemma stored_phone_cleaned phone fb u : stored_phone phone fb u = cleaned phone.
Proof.
  unfold stored_phone, update_customer_phone, cleaned.
  destruct (FirebaseManager.get_customer_data fb _) as [cd|]; [| reflexivity].
  destruct (cd_name cd) as [name|]; simpl;
    repeat match goal with
           | |- context [if ?b then _ else _] => destruct b; simpl
           | |- context [match ?l with [] => _ | _ :: _ => _ end] =>
               destruct l; simpl
           end; reflexivity.
Qed.

Lemma stored_phone_ten_digits phone fb u :
  Py.len (Py.join_filter Py.isdigit phone) = 10 →
  stored_phone phone fb u = "+1" +:+ Py.join_filter Py.isdigit phone.
Proof.
  intros H. rewrite stored_phone_cleaned. unfold cleaned. simpl.
  rewrite H. reflexivity.
Qed.

Lemma stored_phone_eleven_digits phone fb u :
  Py.len (Py.join_filter Py.isdigit phone) = 11 →
  Py.startswith (Py.join_filter Py.isdigit phone) "1" = true →
  stored_phone phone fb u = "+" +:+ Py.join_filter Py.isdigit phone.
Proof.
  intros H1 H2. rewrite stored_phone_cleaned. unfold cleaned. simpl.
  rewrite H1, H2. reflexivity.
Qed.

(** Every other shape is stored as its digits, not as it was given. *)
Lemma stored_phone_other_shape phone fb u :
  Py.len (Py.join_filter Py.isdigit phone) ≠ 10 →
  ¬ (Py.len (Py.join_filter Py.isdigit phone) = 11
     ∧ Py.startswith (Py.join_filter Py.isdigit phone) "1" = true) →
  stored_phone phone fb u = Py.join_filter Py.isdigit phone.
Proof.
  intros H1 H2. rewrite stored_phone_cleaned. unfold cleaned. simpl.
  apply Z.eqb_neq in H1. rewrite H1.
  destruct (Py.len _ =? 11) eqn:E; [| reflexivity].
  destruct (Py.startswith _ "1") eqn:E'; [| reflexivity].
  exfalso. apply H2. split; [apply Z.eqb_eq; exact E | reflexivity].
Qed.

(** The SIP handler follows the specified rule on every non-empty
    input. *)
Lemma normalize_phone_as_specified phone :
  phone ≠ "" → SipCallHandler._normalize_phone phone = phone_as_specified phone.
Proof.
  intros H. unfold SipCallHandler._normalize_phone.
  destruct phone; [congruence | reflexivity].
Qed.

End Phone.

(** C2. The first two rules hold for [update_customer_phone]; the third
    does not: the seven-digit input ["555-1234"] is stored as ["5551234"],
    while the specified rule, and the SIP handler's [_normalize_phone], keep
    it as given. *)
Theorem set_phone_other_shape_stores_digits_only :
  stored_phone "555-123-4567" (empty_store true) fresh_session = "+15551234567"
  ∧ stored_phone "1 (555) 123-4567" (empty_store true) fresh_session
    = "+15551234567"
  ∧ stored_phone "555-1234" (empty_store true) fresh_session = "5551234"
  ∧ phone_as_specified "555-1234" = "555-1234"
  ∧ SipCallHandler._normalize_phone "555-1234" = "555-1234".
Proof. repeat split; reflexivity. Qed.

(** ** The draft total *)

Section DraftTotal.

Implicit Types (u : UserData) (m : Mutation) (ms : list Mutation).

Lemma add_item_order_total u item quantity :
  order_total (OrderAgent.add_item u item quantity).2 = order_total u.
Proof. reflexivity. Qed.

Lemma set_payment_method_order_total u method :
  order_total (OrderAgent.set_payment_method u method).2 = order_total u.
Proof. reflexivity. Qed.

Lemma apply_mutation_order_total u m :
  order_total (apply_mutation u m) = order_total u.
Proof. destruct m; reflexivity. Qed.

Lemma run_order_total u ms : order_total (run u ms) = order_total u.
Proof.
  unfold run. revert u.
  induction ms as [|m ms IH]; intros u; simpl; [reflexivity |].
  rewrite IH. apply apply_mutation_order_total.
Qed.

(** With every unit price unresolved the sum is the rational [0]. *)
Lemma line_items_sum_unresolved (order : list DraftLine) :
  line_items_sum unresolved_price order = 0%Q.
Proof.
  unfold line_items_sum.
  induction order as [|l order IH]; simpl; [reflexivity |].
  exact IH.
Qed.

Lemma run_snoc u ms m : run u (ms ++ [m]) = apply_mutation (run u ms) m.
Proof. unfold run. rewrite fold_left_app. reflexivity. Qed.

End DraftTotal.

(** C1 (amended). [order_total] is a stored field that no draft-order
    mutation writes: after any sequence of [add_item] and
    [set_payment_method] calls it has the value it had before.  A session
    built with the default total 0 therefore keeps a total that agrees with
    the line items as long as their unit prices are the unresolved 0. *)
Theorem order_total_untouched_by_mutations :
  (∀ (u : UserData) (ms : list Mutation),
     order_total (run u ms) = order_total u)
  ∧ (∀ (call_id caller_number session_id intent : string)
       (ms : list Mutation),
       total_consistent unresolved_price
         (run (UserData_init call_id caller_number session_id intent) ms)).
Proof.
  split.
  - apply run_order_total.
  - intros c n s i ms. unfold total_consistent.
    rewrite run_order_total, line_items_sum_unresolved. reflexivity.
Qed.

(** C1 as stated fails.  The total is not recomputed: a session whose total
    is 5 still has total 5 after a line is added, while its line items, at
    the unresolved unit price, add up to 0; and against the prices of the
    menu cache a fresh session has total 0 after two coffees at 3.50 are
    added. *)
Lemma order_total_not_recomputed_counterexample :
  ¬ total_consistent unresolved_price
      (apply_mutation (session_with_total 5) (AddItem "Coffee" 1))
  ∧ ¬ total_consistent (catalog_price (coffee_store true))
        (apply_mutation fresh_session (AddItem "Coffee" 2)).
Proof.
  split; unfold total_consistent; vm_compute; discriminate.
Qed.

(** ** The confirm tools *)

Section Confirm.
Import ConfirmationAgent.

Implicit Types (fb : FirebaseManager.t) (u : UserData).

Lemma mapM_order_item_of_raises (order : list DraftLine) :
  order ≠ [] → mapM order_item_of order = Raise TypeError.
Proof. destruct order as [|l rest]; [congruence | reflexivity]. Qed.

(** [confirm_order] never reaches the store: an incomplete session is
    refused, a complete one dies on the [OrderItem] constructor. *)
Lemma confirm_order_cases order_id now fb u :
  confirm_order order_id now fb u = (RText order_incomplete, u, fb)
  ∨ confirm_order order_id now fb u = (RText apology, u, fb).
Proof.
  unfold confirm_order, confirm_order_try.
  destruct (negb _) eqn:G; [left; reflexivity |].
  right. apply negb_false_iff in G.
  apply andb_true_iff in G as [_ G]. apply bool_decide_eq_true in G.
  rewrite (mapM_order_item_of_raises _ G). reflexivity.
Qed.

Lemma confirm_order_store_unchanged order_id now fb u :
  (confirm_order order_id now fb u).2 = fb.
Proof. destruct (confirm_order_cases order_id now fb u) as [-> | ->]; reflexivity. Qed.

(** A complete reservation gets the success text whatever
    [save_reservation] returned. *)
Lemma confirm_reservation_complete reservation_id now fb u :
  Py.truthy (customer_name u) = true → Py.truthy (customer_phone u) = true →
  Py.truthy (reservation_date u) = true →
  Py.truthy (reservation_time u) = true → 0 < party_size u →
  confirm_reservation reservation_id now fb u
  = (RText reservation_saved, u,
     (FirebaseManager.save_reservation fb reservation_id now u).2).
Proof.
  intros Hn Hp Hd Ht Hs. unfold confirm_reservation, confirm_reservation_try.
  rewrite Hn, Hp, Hd, Ht. apply Z.ltb_lt in Hs. rewrite Hs. reflexivity.
Qed.

Lemma save_reservation_down fb reservation_id now u :
  FirebaseManager.db_up fb = false →
  FirebaseManager.save_reservation fb reservation_id now u = (false, fb).
Proof. intros H. unfold FirebaseManager.save_reservation. rewrite H. reflexivity. Qed.

(** Items built with the literal price add up to nothing. *)
Lemma sum_total_price_zero (items : list OrderItem.t) :
  Forall (fun it => OrderItem.unit_price it = 0%Q) items →
  CustomerOrder.sum_total_price items = 0%Q.
Proof.
  unfold CustomerOrder.sum_total_price.
  induction 1 as [|it items Hit _ IH]; [reflexivity |].
  cbn [fold_left].
  replace (0 + OrderItem.total_price it)%Q with 0%Q; [exact IH |].
  unfold OrderItem.total_price. rewrite Hit. reflexivity.
Qed.

End Confirm.

(** C3. When the store reports that saving the reservation failed,
    [confirm_reservation] still answers with the success text: the value
    that [save_reservation] returns is dropped. *)
Theorem confirm_reservation_ignores_store_failure :
  (FirebaseManager.save_reservation (empty_store false) "r-1" 0
     sam_reservation_session).1 = false
  ∧ ConfirmationAgent.confirm_reservation "r-1" 0 (empty_store false)
      sam_reservation_session
    = (RText ConfirmationAgent.reservation_saved, sam_reservation_session,
       empty_store false).
Proof. split; reflexivity. Qed.

(** C4. With the name, the phone or the draft order missing,
    [confirm_order] returns its refusal text, leaves the store and the
    session as they were, and the session stays with the confirmation
    agent. *)
Theorem confirm_order_incomplete_refuses
    (order_id : string) (now : Z) (fb : FirebaseManager.t) (u : UserData) :
  customer_name u = "" ∨ customer_phone u = "" ∨ current_order u = [] →
  ConfirmationAgent.confirm_order order_id now fb u
  = (RText ConfirmationAgent.order_incomplete, u, fb)
  ∧ agent_after ConfirmationAgent
      (ConfirmationAgent.confirm_order order_id now fb u).1.1
    = ConfirmationAgent.
Proof.
  intros H.
  assert (E : ConfirmationAgent.confirm_order order_id now fb u
              = (RText ConfirmationAgent.order_incomplete, u, fb)).
  { unfold ConfirmationAgent.confirm_order, ConfirmationAgent.confirm_order_try.
    destruct H as [H | [H | H]]; rewrite H.
    - reflexivity.
    - cbn [Py.truthy]. rewrite andb_false_r. reflexivity.
    - rewrite (bool_decide_eq_false_2 ([] ≠ []))
        by (intros C; apply C; reflexivity).
      rewrite andb_false_r. reflexivity. }
  rewrite E. split; reflexivity.
Qed.

Lemma confirm_order_incomplete_refuses_witness :
  let u := run (set_customer_name "Sam" fresh_session) [AddItem "Coffee" 1] in
  customer_phone u = ""
  ∧ ConfirmationAgent.confirm_order "o-1" 0 (coffee_store true) u
    = (RText ConfirmationAgent.order_incomplete, u, coffee_store true).
Proof.
  intros u. split; [reflexivity |].
  apply (confirm_order_incomplete_refuses "o-1" 0 (coffee_store true) u).
  right. left. reflexivity.
Defined.

(** C9. [confirm_order] does not take the unit price from the menu cache:
    every [OrderItem] is called with [unit_price = 0.0], and the call omits
    the required [menu_item_name], so it raises and nothing is stored.  For
    Sam's coffee, priced 3.50 in the cache, the tool returns the apology and
    the store holds no order. *)
Theorem confirm_order_ignores_catalog_price :
  catalog_price (coffee_store true) "Coffee" = (7 # 2)%Q
  ∧ ConfirmationAgent.order_item_of (mkDraftLine "Coffee" 1) = Raise TypeError
  ∧ ConfirmationAgent.confirm_order "o-1" 0 (coffee_store true)
      sam_order_session
    = (RText ConfirmationAgent.apology, sam_order_session, coffee_store true)
  ∧ FirebaseManager.orders
      (ConfirmationAgent.confirm_order "o-1" 0 (coffee_store true)
         sam_order_session).2 = [].
Proof. repeat split; reflexivity. Qed.

(** ** Reservation details *)

Section Reservation.

Implicit Types (u : UserData) (date time : string) (size : Z).

Lemma reservation_handoff_needs_positive_size u :
  party_size u ≤ 0 → ReservationAgent._handoff_if_done u = RNone.
Proof.
  intros H. unfold ReservationAgent._handoff_if_done.
  apply Z.ltb_ge in H. rewrite H, andb_false_r. reflexivity.
Qed.

Lemma confirm_reservation_needs_positive_size reservation_id now fb u :
  party_size u ≤ 0 →
  ConfirmationAgent.confirm_reservation reservation_id now fb u
  = (RText ConfirmationAgent.reservation_incomplete, u, fb).
Proof.
  intros H.
  unfold ConfirmationAgent.confirm_reservation,
    ConfirmationAgent.confirm_reservation_try.
  apply Z.ltb_ge in H. rewrite H, andb_false_r. reflexivity.
Qed.

End Reservation.

(** C8 (amended). [set_reservation_details] does not validate the party
    size: a size that is not positive is stored together with the date and
    the time, and the tool returns [None].  The size is rejected later, by
    [confirm_reservation], which answers with its refusal text and leaves
    session and store alone. *)
Theorem set_reservation_details_stores_any_party_size
    (u : UserData) (date time : string) (size : Z) :
  size ≤ 0 →
  let stored :=
    set_party_size size
      (set_reservation_time time (set_reservation_date date u)) in
  ReservationAgent.set_reservation_details u date time size = (RNone, stored)
  ∧ ∀ (reservation_id : string) (now : Z) (fb : FirebaseManager.t),
      ConfirmationAgent.confirm_reservation reservation_id now fb stored
      = (RText ConfirmationAgent.reservation_incomplete, stored, fb).
Proof.
  intros H stored. split.
  - unfold ReservationAgent.set_reservation_details. fold stored.
    rewrite reservation_handoff_needs_positive_size by exact H.
    reflexivity.
  - intros reservation_id now fb.
    apply confirm_reservation_needs_positive_size. exact H.
Qed.

Lemma set_reservation_details_stores_any_party_size_witness :
  (ReservationAgent.set_reservation_details fresh_session "2025-06-01"
     "19:30" (-2)).1 = RNone
  ∧ party_size
      (ReservationAgent.set_reservation_details fresh_session "2025-06-01"
         "19:30" (-2)).2 = -2.
Proof.
  assert (H : -2 ≤ 0) by lia.
  destruct (set_reservation_details_stores_any_party_size fresh_session
              "2025-06-01" "19:30" (-2) H) as [E _].
  rewrite E. split; reflexivity.
Defined.

(** C8 as stated fails: for party size 0 the tool returns no text and the
    date and time of the session change. *)
Lemma set_reservation_details_zero_party_counterexample :
  ¬ party_size_rejected fresh_session "2025-06-01" "19:30" 0.
Proof. intros ((text & H) & _). discriminate H. Qed.

(** The mutation half of the same input. *)
Example set_reservation_details_zero_party_mutates :
  reservation_date
    (ReservationAgent.set_reservation_details fresh_session "2025-06-01"
       "19:30" 0).2 = "2025-06-01"
  ∧ reservation_date fresh_session = "".
Proof. split; reflexivity. Qed.

(** ** Corrections *)

Section Correction.
Import ConfirmationAgent.

Implicit Types (u : UserData) (field new_value : string).

Lemma lstrip_keeps_foreign c s :
  foreign c → occurs c s → occurs c (Py.lstrip s) ∧ Py.lstrip s ≠ "".
Proof.
  intros (_ & Hs & _) Hocc.
  induction s as [|c' rest IH]; simpl in *; [contradiction |].
  destruct (Py.isspace c') eqn:E.
  - destruct Hocc as [-> | Hocc]; [congruence | exact (IH Hocc)].
  - split; [exact Hocc | discriminate].
Qed.

Lemma digits_from_foreign c s prev acc :
  foreign c → occurs c s → Py.digits_from prev acc s = None.
Proof.
  intros Hc. revert prev acc.
  induction s as [|c' rest IH]; intros prev acc Hocc; simpl in *;
    [contradiction |].
  destruct Hc as (Hd & Hs & Hu & Hplus & Hminus).
  destruct Hocc as [-> | Hocc].
  - rewrite Hd, Hs.
    destruct (Nat.eqb_spec (nat_of_ascii c) 95) as [E|_]; [| reflexivity].
    exfalso. apply Hu. rewrite <- (ascii_nat_embedding c), E. reflexivity.
  - destruct (Py.isdecimal c'); [apply IH; exact Hocc |].
    destruct (Py.isspace c').
    + destruct prev; [| reflexivity].
      destruct (lstrip_keeps_foreign c rest) as [_ Hne];
        [repeat split; assumption | exact Hocc |].
      destruct (Py.lstrip rest); [congruence | reflexivity].
    + destruct (nat_of_ascii c' =? 95)%nat; [| reflexivity].
      destruct prev; [apply IH; exact Hocc | reflexivity].
Qed.

(** [int] raises on every string that contains a foreign character, a
    letter for instance. *)
Lemma int_foreign c s : foreign c → occurs c s → Py.int s = None.
Proof.
  intros Hc Hocc. unfold Py.int.
  destruct (lstrip_keeps_foreign c s Hc Hocc) as [Hocc' _].
  destruct (Py.lstrip s) as [|c' rest]; [contradiction |].
  assert (Hall : Py.digits_from false 0 (String c' rest) = None)
    by (apply (digits_from_foreign c); assumption).
  destruct Hocc' as [-> | Hrest].
  - destruct Hc as (_ & _ & _ & Hplus & Hminus).
    destruct c as [[] [] [] [] [] [] [] []]; try exact Hall; congruence.
  - assert (Hr : Py.digits_from false 0 rest = None)
      by (apply (digits_from_foreign c); assumption).
    destruct c' as [[] [] [] [] [] [] [] []]; try exact Hall;
      rewrite Hr; reflexivity.
Qed.

Lemma field_mapping_outside field :
  field ∉ ["name"; "phone"; "email"; "date"; "time"; "party_size"] →
  field_mapping !! field = None.
Proof.
  intros H. unfold field_mapping.
  repeat (apply not_elem_of_cons in H as [? H]).
  repeat (rewrite list_to_map_cons, lookup_insert_ne by (simpl; congruence)).
  rewrite list_to_map_nil. apply lookup_empty.
Qed.

Lemma request_correction_party_size_int u new_value n :
  Py.int new_value = Some n →
  request_correction u "party_size" new_value
  = Ok (RText (correction_done new_value), set_party_size n u).
Proof.
  intros H. unfold request_correction.
  change (field_mapping !! "party_size") with (Some "party_size").
  simpl. rewrite H. reflexivity.
Qed.

End Correction.

(** C10. [request_correction] lets the [ValueError] of [int] escape when
    the field is ["party_size"] and the new value is not an integer
    literal; for the five other fields of the allowlist it stores the new
    value as given and returns a text; for every other field name it changes
    nothing and returns the text that names the fields one may correct. *)
Theorem request_correction_is_partial
    (u : UserData) (field new_value : string) :
  (Py.int new_value = None →
   ConfirmationAgent.request_correction u "party_size" new_value
   = Raise ValueError)
  ∧ (∀ c, foreign c → occurs c new_value →
       ConfirmationAgent.request_correction u "party_size" new_value
       = Raise ValueError)
  ∧ ConfirmationAgent.request_correction u "name" new_value
    = Ok (RText (ConfirmationAgent.correction_done new_value),
          set_customer_name new_value u)
  ∧ ConfirmationAgent.request_correction u "phone" new_value
    = Ok (RText (ConfirmationAgent.correction_done new_value),
          set_customer_phone new_value u)
  ∧ ConfirmationAgent.request_correction u "email" new_value
    = Ok (RText (ConfirmationAgent.correction_done new_value),
          set_customer_email new_value u)
  ∧ ConfirmationAgent.request_correction u "date" new_value
    = Ok (RText (ConfirmationAgent.correction_done new_value),
          set_reservation_date new_value u)
  ∧ ConfirmationAgent.request_correction u "time" new_value
    = Ok (RText (ConfirmationAgent.correction_done new_value),
          set_reservation_time new_value u)
  ∧ (field ∉ ["name"; "phone"; "email"; "date"; "time"; "party_size"] →
     ConfirmationAgent.request_correction u field new_value
     = Ok (RText ConfirmationAgent.correction_help, u)).
Proof.
  assert (Hraise : Py.int new_value = None →
                   ConfirmationAgent.request_correction u "party_size"
                     new_value = Raise ValueError).
  { intros H. unfold ConfirmationAgent.request_correction.
    change (ConfirmationAgent.field_mapping !! "party_size")
      with (Some "party_size").
    simpl. rewrite H. reflexivity. }
  split; [exact Hraise |].
  split; [intros c Hc Hocc; apply Hraise, (int_foreign c); assumption |].
  do 5 (split; [reflexivity |]).
  intros H. unfold ConfirmationAgent.request_correction.
  rewrite (field_mapping_outside field H). reflexivity.
Qed.

Lemma request_correction_is_partial_witness :
  Py.int "four" = None
  ∧ ConfirmationAgent.request_correction sam_reservation_session
      "party_size" "four" = Raise ValueError
  ∧ foreign "f" ∧ occurs "f" "four"
  ∧ ConfirmationAgent.request_correction sam_reservation_session
      "party_size" "four" = Raise ValueError
  ∧ ("table" ∉ ["name"; "phone"; "email"; "date"; "time"; "party_size"])
  ∧ ConfirmationAgent.request_correction sam_reservation_session
      "table" "four"
    = Ok (RText ConfirmationAgent.correction_help, sam_reservation_session).
Proof.
  assert (Hint : Py.int "four" = None) by reflexivity.
  assert (Hout : "table" ∉ ["name"; "phone"; "email"; "date"; "time"; "party_size"])
    by (apply (bool_decide_unpack _); reflexivity).
  assert (Hf : foreign "f") by (repeat split; discriminate).
  assert (Hocc : occurs "f" "four") by (left; reflexivity).
  destruct (request_correction_is_partial sam_reservation_session "table"
              "four") as (Hraise & Hletter & _ & _ & _ & _ & _ & Hhelp).
  split; [exact Hint |]. split; [exact (Hraise Hint) |].
  split; [exact Hf |]. split; [exact Hocc |].
  split; [exact (Hletter "f"%char Hf Hocc) |].
  split; [exact Hout | exact (Hhelp Hout)].
Defined.


(** * Further properties of the code *)

(** ** Truncation as a window on the filtered transcript *)

Section TruncateWindow.
Import BaseRestaurantAgent.

Implicit Types (items l acc : list ChatItem) (it : ChatItem).

(** For a positive bound the loop takes the first [keep] items that pass
    the filter, skipping the others. *)
Lemma collect_filter valid keep l acc :
  Z.of_nat (length acc) < keep →
  collect valid keep l acc
  = acc ++ take (Z.to_nat (keep - Z.of_nat (length acc)))
             (filter (fun it => valid it = true) l).
Proof.
  revert acc. induction l as [|it rest IH]; intros acc Hlt; simpl.
  - rewrite filter_nil, take_nil, app_nil_r. reflexivity.
  - destruct (valid it) eqn:E.
    + rewrite filter_cons_True by exact E.
      rewrite length_app. simpl length.
      destruct (Z.leb_spec keep (Z.of_nat (length acc + 1))) as [Hle|Hgt].
      * replace (Z.to_nat (keep - Z.of_nat (length acc))) with 1%nat by lia.
        simpl. rewrite take_0. reflexivity.
      * rewrite IH by (rewrite length_app; simpl; lia).
        rewrite length_app. simpl length.
        replace (Z.to_nat (keep - Z.of_nat (length acc)))
          with (S (Z.to_nat (keep - Z.of_nat (length acc + 1)))) by lia.
        simpl. rewrite <- app_assoc. reflexivity.
    + rewrite filter_cons_False by (rewrite E; discriminate).
      destruct (Z.leb_spec keep (Z.of_nat (length acc))) as [Hle|Hgt];
        [lia |].
      apply IH. exact Hlt.
Qed.

(** For a bound that is not positive the loop stops after its first
    item. *)
Lemma collect_nonpositive valid keep l :
  keep ≤ 0 →
  collect valid keep l []
  = match l with
    | [] => []
    | it :: _ => if valid it then [it] else []
    end.
Proof.
  intros Hk. destruct l as [|it rest]; simpl; [reflexivity |].
  destruct (valid it); simpl;
    rewrite (proj2 (Z.leb_le _ _)) by (simpl; lia); reflexivity.
Qed.

(** The window before the orphans are dropped is a suffix of the filtered
    transcript. *)
Lemma window_suffix items keep ks kf :
  ∃ k, reverse (collect (_valid_item ks kf) keep (reverse items) [])
       = drop k (valid_items ks kf items)
       ∧ (length (valid_items ks kf items) - k ≤ Z.to_nat (Z.max 1 keep))%nat.
Proof.
  destruct (Z.le_gt_cases keep 0) as [Hk|Hk].
  - rewrite collect_nonpositive by exact Hk.
    replace (Z.to_nat (Z.max 1 keep)) with 1%nat by lia.
    destruct items as [|x items _] using rev_ind.
    + exists 0%nat. split; [reflexivity | simpl; lia].
    + rewrite reverse_snoc. unfold valid_items. rewrite filter_app.
      destruct (_valid_item ks kf x) eqn:E.
      * rewrite (filter_cons_True _ x []) by exact E. rewrite filter_nil.
        exists (length (filter (fun it => _valid_item ks kf it = true) items)).
        rewrite drop_app_length, length_app. simpl. split; [reflexivity | lia].
      * rewrite (filter_cons_False _ x []) by (rewrite E; discriminate).
        rewrite filter_nil, app_nil_r.
        exists (length (filter (fun it => _valid_item ks kf it = true) items)).
        rewrite drop_all. split; [reflexivity | lia].
  - rewrite collect_filter by (simpl; lia).
    simpl. rewrite Z.sub_0_r, filter_reverse, take_reverse, reverse_involutive.
    fold (valid_items ks kf items).
    exists (length (valid_items ks kf items) - Z.to_nat keep)%nat.
    split; [reflexivity | lia].
Qed.

Lemma drop_orphans_suffix l : ∃ k, drop_orphans l = drop k l.
Proof.
  induction l as [|it rest [k IH]]; simpl.
  - exists 0%nat. reflexivity.
  - destruct (is_function_item it).
    + exists (S k). exact IH.
    + exists 0%nat. reflexivity.
Qed.

Lemma truncate_suffix items keep ks kf :
  ∃ k, _truncate_chat_ctx items keep ks kf = drop k (valid_items ks kf items)
       ∧ (length (valid_items ks kf items) - k ≤ Z.to_nat (Z.max 1 keep))%nat.
Proof.
  unfold _truncate_chat_ctx.
  destruct (window_suffix items keep ks kf) as (k & -> & Hlen).
  destruct (drop_orphans_suffix (drop k (valid_items ks kf items)))
    as [j ->].
  exists (k + j)%nat. rewrite drop_drop. split; [reflexivity | lia].
Qed.

Lemma valid_items_all ks kf items :
  Forall (fun it => _valid_item ks kf it = true) (valid_items ks kf items).
Proof.
  unfold valid_items. apply Forall_forall. intros it Hit.
  apply list_elem_of_filter in Hit. tauto.
Qed.

Lemma valid_items_id ks kf l :
  Forall (fun it => _valid_item ks kf it = true) l → valid_items ks kf l = l.
Proof.
  unfold valid_items. induction 1 as [|it l Hit _ IH]; [reflexivity |].
  rewrite filter_cons_True by exact Hit. rewrite IH. reflexivity.
Qed.

End TruncateWindow.

(** X1. [_truncate_chat_ctx] returns at most [keep_last_n_messages] items
    when that bound is at least 1, and at most one item otherwise: the loop
    tests the bound only after it has appended. *)
Theorem truncate_length_bound
    (items : list ChatItem) (keep_last_n_messages : Z)
    (keep_system_message keep_function_call : bool) :
  Z.of_nat
    (length
       (BaseRestaurantAgent._truncate_chat_ctx items keep_last_n_messages
          keep_system_message keep_function_call))
  ≤ Z.max 1 keep_last_n_messages.
Proof.
  destruct (truncate_suffix items keep_last_n_messages keep_system_message
              keep_function_call) as (k & -> & Hlen).
  rewrite length_drop. lia.
Qed.

(** The bound 1 is reached for a bound of 0. *)
Example truncate_keep_zero_returns_one :
  BaseRestaurantAgent._truncate_chat_ctx ten_messages 0 false false
  = drop 9 ten_messages.
Proof. reflexivity. Qed.

(** X2. Whatever the parameters, the result of [_truncate_chat_ctx] is a
    most-recent stretch of the items that pass the filter: some number of
    the oldest filtered items is cut off and nothing else is removed or
    reordered.  In particular every returned item passes the filter and
    the result is a sublist of the input. *)
Theorem truncate_is_suffix_of_filtered
    (items : list ChatItem) (keep_last_n_messages : Z)
    (keep_system_message keep_function_call : bool) :
  let result :=
    BaseRestaurantAgent._truncate_chat_ctx items keep_last_n_messages
      keep_system_message keep_function_call in
  (∃ k, result
        = drop k (valid_items keep_system_message keep_function_call items))
  ∧ Forall
      (fun it =>
         BaseRestaurantAgent._valid_item keep_system_message
           keep_function_call it = true) result
  ∧ result `sublist_of` items.
Proof.
  intros result. subst result.
  destruct (truncate_suffix items keep_last_n_messages keep_system_message
              keep_function_call) as (k & E & _).
  rewrite E. split; [exists k; reflexivity |]. split.
  - apply Forall_drop, valid_items_all.
  - transitivity (valid_items keep_system_message keep_function_call items).
    + apply sublist_drop.
    + apply sublist_filter.
Qed.

(** X3. For a bound of at least 1 the result is exactly the last
    [keep_last_n_messages] items that pass the filter, minus the function
    calls and outputs at its front. *)
Theorem truncate_is_last_filtered
    (items : list ChatItem) (keep_last_n_messages : Z)
    (keep_system_message keep_function_call : bool) :
  1 ≤ keep_last_n_messages →
  let filtered := valid_items keep_system_message keep_function_call items in
  BaseRestaurantAgent._truncate_chat_ctx items keep_last_n_messages
    keep_system_message keep_function_call
  = BaseRestaurantAgent.drop_orphans
      (drop (length filtered - Z.to_nat keep_last_n_messages) filtered).
Proof.
  intros Hk filtered. unfold BaseRestaurantAgent._truncate_chat_ctx.
  rewrite collect_filter by (simpl; lia).
  simpl. rewrite Z.sub_0_r, filter_reverse, take_reverse, reverse_involutive.
  reflexivity.
Qed.

Lemma truncate_is_last_filtered_witness :
  BaseRestaurantAgent._truncate_chat_ctx
    (mkChatItem "s0" "message" "system" "You are the OrderAgent."
     :: ten_messages) 3 false false
  = drop 7 ten_messages.
Proof.
  rewrite (truncate_is_last_filtered _ 3 false false) by lia.
  reflexivity.
Defined.

(** X4. Truncating twice with the same parameters is truncating once. *)
Theorem truncate_idempotent
    (items : list ChatItem) (keep_last_n_messages : Z)
    (keep_system_message keep_function_call : bool) :
  let result :=
    BaseRestaurantAgent._truncate_chat_ctx items keep_last_n_messages
      keep_system_message keep_function_call in
  BaseRestaurantAgent._truncate_chat_ctx result keep_last_n_messages
    keep_system_message keep_function_call
  = result.
Proof.
  intros result.
  pose proof (drop_orphans_head
    (reverse (BaseRestaurantAgent.collect
       (BaseRestaurantAgent._valid_item keep_system_message
          keep_function_call)
       keep_last_n_messages (reverse items) []))) as Hhead.
  fold (BaseRestaurantAgent._truncate_chat_ctx items keep_last_n_messages
          keep_system_message keep_function_call) in Hhead.
  fold result in Hhead.
  assert (Hvalid : Forall
            (fun it => BaseRestaurantAgent._valid_item keep_system_message
                         keep_function_call it = true) result).
  { subst result.
    destruct (truncate_suffix items keep_last_n_messages keep_system_message
                keep_function_call) as (k & -> & _).
    apply Forall_drop, valid_items_all. }
  assert (Hlen : Z.of_nat (length result) ≤ Z.max 1 keep_last_n_messages).
  { subst result.
    destruct (truncate_suffix items keep_last_n_messages keep_system_message
                keep_function_call) as (k & -> & Hl).
    rewrite length_drop. lia. }
  clearbody result.
  destruct (Z.le_gt_cases keep_last_n_messages 0) as [Hk|Hk].
  - unfold BaseRestaurantAgent._truncate_chat_ctx.
    rewrite collect_nonpositive by exact Hk.
    destruct result as [|x [|y rest]]; [reflexivity | | simpl in Hlen; lia].
    rewrite reverse_singleton.
    inversion Hvalid as [|? ? Hx _]; subst. rewrite Hx.
    rewrite reverse_singleton. simpl. simpl in Hhead. rewrite Hhead.
    reflexivity.
  - unfold BaseRestaurantAgent._truncate_chat_ctx.
    rewrite collect_filter by (simpl; lia).
    simpl. rewrite Z.sub_0_r, filter_reverse.
    fold (valid_items keep_system_message keep_function_call result).
    rewrite valid_items_id by exact Hvalid.
    rewrite take_ge by (rewrite length_reverse; lia).
    rewrite reverse_involutive.
    apply drop_orphans_id. destruct result; [exact I | exact Hhead].
Qed.

(** ** Merging twice, and merging on entry *)

Section MergeAgain.
Import BaseRestaurantAgent.

Implicit Types (target source : list ChatItem) (it : ChatItem).

Lemma merge_covers_source target source it :
  it ∈ source → id it ∈ ids (merge target source).
Proof.
  intros Hit. rewrite merge_unfold. unfold ids. rewrite fmap_app.
  apply elem_of_app.
  destruct (decide (id it ∈ id <$> target)) as [Hin|Hout]; [left; exact Hin |].
  right. apply list_elem_of_fmap_2. apply list_elem_of_filter.
  split; [exact Hout | exact Hit].
Qed.

Lemma filter_none {A} (P : A → Prop) `{∀ x, Decision (P x)} (l : list A) :
  (∀ x, x ∈ l → ¬ P x) → filter P l = [].
Proof.
  induction l as [|x l IH]; intros Hall; [reflexivity |].
  rewrite filter_cons_False by (apply Hall; left).
  apply IH. intros y Hy. apply Hall. right. exact Hy.
Qed.

Lemma filter_all {A} (P : A → Prop) `{∀ x, Decision (P x)} (l : list A) :
  (∀ x, x ∈ l → P x) → filter P l = l.
Proof.
  induction l as [|x l IH]; intros Hall; [reflexivity |].
  rewrite filter_cons_True by (apply Hall; left).
  f_equal. apply IH. intros y Hy. apply Hall. right. exact Hy.
Qed.

Lemma merge_length target source :
  (length target ≤ length (merge target source)
   ∧ length (merge target source) ≤ length target + length source)%nat.
Proof.
  rewrite merge_unfold, length_app.
  pose proof (length_filter (fun it => id it ∉ ids target) source). lia.
Qed.

End MergeAgain.

(** X5. Merging the same source a second time adds nothing, merging an
    empty source changes nothing, and merging into an empty target keeps the
    whole source. *)
Theorem merge_again_adds_nothing (target source : list ChatItem) :
  BaseRestaurantAgent.merge (BaseRestaurantAgent.merge target source) source
  = BaseRestaurantAgent.merge target source
  ∧ BaseRestaurantAgent.merge target [] = target
  ∧ BaseRestaurantAgent.merge [] source = source.
Proof.
  split; [| split].
  - rewrite (merge_unfold (BaseRestaurantAgent.merge target source) source).
    rewrite filter_none; [apply app_nil_r |].
    intros it Hit Hout. apply Hout. apply merge_covers_source. exact Hit.
  - rewrite merge_unfold, filter_nil. apply app_nil_r.
  - rewrite merge_unfold. simpl. apply filter_all.
    intros it _. unfold ids. simpl. apply not_elem_of_nil.
Qed.

(** X6. After a merge every identity of the source is present in the
    result, and the result has at least the length of the target and at
    most the two lengths together. *)
Theorem merge_covers_source_identities (target source : list ChatItem) :
  let merged := BaseRestaurantAgent.merge target source in
  (∀ it, it ∈ source → id it ∈ ids merged)
  ∧ (∀ it, it ∈ target → it ∈ merged)
  ∧ (length target ≤ length merged ≤ length target + length source)%nat.
Proof.
  intros merged. subst merged. split; [| split].
  - intros it. apply merge_covers_source.
  - intros it Hit. rewrite merge_unfold. apply elem_of_app. left. exact Hit.
  - apply merge_length.
Qed.

Lemma merge_covers_source_identities_witness :
  let a := mkChatItem "a" "message" "user" "hello" in
  let b := mkChatItem "b" "message" "assistant" "hi" in
  let b' := mkChatItem "b" "message" "assistant" "hi again" in
  id b' ∈ ids (BaseRestaurantAgent.merge [a; b] [b'])
  ∧ a ∈ BaseRestaurantAgent.merge [a; b] [b'].
Proof.
  intros a b b'.
  destruct (merge_covers_source_identities [a; b] [b']) as (Hs & Ht & _).
  split.
  - apply Hs. left.
  - apply Ht. left.
Defined.

(** X7. On entry an agent keeps its own items in front, unchanged, and
    receives at most six items of the previous agent, none of them a system
    message and none with an identity it already holds. *)
Theorem on_enter_merge_bounded (own_items prev_items : list ChatItem) :
  let merged := BaseRestaurantAgent.on_enter_merge own_items prev_items in
  take (length own_items) merged = own_items
  ∧ (length (drop (length own_items) merged) ≤ 6)%nat
  ∧ Forall
      (fun it =>
         ¬ (type it = "message" ∧ role it = "system")
         ∧ id it ∉ ids own_items)
      (drop (length own_items) merged).
Proof.
  intros merged. subst merged. unfold BaseRestaurantAgent.on_enter_merge.
  split; [apply merge_prefix |].
  rewrite merge_unfold, drop_app_length.
  pose proof (truncate_suffix prev_items 6 false true) as (k & E & Hlen).
  split.
  - etransitivity; [apply length_filter |].
    rewrite E, length_drop. simpl in Hlen. lia.
  - apply Forall_forall. intros it Hit.
    apply list_elem_of_filter in Hit as [Hfresh Hit]. split; [| exact Hfresh].
    rewrite E in Hit.
    assert (Hv : BaseRestaurantAgent._valid_item false true it = true).
    { pose proof (valid_items_all false true prev_items) as Hall.
      apply (Forall_drop _ k) in Hall.
      exact (proj1 (Forall_forall _ _) Hall it Hit). }
    intros [Ht Hr]. unfold BaseRestaurantAgent._valid_item in Hv.
    rewrite Ht, Hr in Hv. discriminate Hv.
Qed.

(** ** The phone rule, applied again *)

Section PhoneAgain.

Implicit Types (phone s : string) (fb : FirebaseManager.t) (u : UserData).

Lemma join_filter_only p s c :
  occurs c (Py.join_filter p s) → p c = true ∧ occurs c s.
Proof.
  induction s as [|c' rest IH]; simpl; [contradiction |].
  destruct (p c') eqn:E; simpl.
  - intros [-> | H]; [split; [exact E | left; reflexivity] |].
    destruct (IH H) as [Hp Hocc]. split; [exact Hp | right; exact Hocc].
  - intros H. destruct (IH H) as [Hp Hocc]. split; [exact Hp | right; exact Hocc].
Qed.

Lemma join_filter_fixed p s :
  (∀ c, occurs c s → p c = true) → Py.join_filter p s = s.
Proof.
  induction s as [|c rest IH]; simpl; intros H; [reflexivity |].
  rewrite (H c) by (left; reflexivity).
  f_equal. apply IH. intros c' Hc'. apply H. right. exact Hc'.
Qed.

Lemma join_filter_idem p s :
  Py.join_filter p (Py.join_filter p s) = Py.join_filter p s.
Proof.
  apply join_filter_fixed. intros c Hc.
  exact (proj1 (join_filter_only p s c Hc)).
Qed.

Lemma len_String c s : Py.len (String c s) = Py.len s + 1.
Proof. unfold Py.len. simpl String.length. lia. Qed.

Lemma startswith_one s : Py.startswith (String "1" s) "1" = true.
Proof. unfold Py.startswith. simpl. destruct s; reflexivity. Qed.

Lemma startswith_one_inv s :
  Py.startswith s "1" = true → ∃ rest, s = String "1" rest.
Proof.
  unfold Py.startswith. destruct s as [|c rest]; [discriminate |].
  cbn [String.prefix].
  destruct (ascii_dec "1" c) as [<- | _]; [| discriminate].
  intros _. exists rest. reflexivity.
Qed.

Lemma recognised_dec digits :
  recognised digits
  ∨ ((Py.len digits =? 10) = false
     ∧ ((Py.len digits =? 11) && Py.startswith digits "1") = false).
Proof.
  unfold recognised.
  destruct (Z.eqb_spec (Py.len digits) 10) as [E|E]; [left; left; exact E |].
  destruct (Z.eqb_spec (Py.len digits) 11) as [E'|E'].
  - destruct (Py.startswith digits "1") eqn:P.
    + left. right. split; [exact E' | reflexivity].
    + right. split; reflexivity.
  - right. split; reflexivity.
Qed.

(** The cleaned form in the three cases. *)
Lemma cleaned_cases phone :
  let digits := Py.join_filter Py.isdigit phone in
  (Py.len digits = 10 ∧ cleaned phone = String "+" (String "1" digits))
  ∨ (Py.len digits = 11 ∧ Py.startswith digits "1" = true
     ∧ cleaned phone = String "+" digits)
  ∨ (¬ recognised digits ∧ cleaned phone = digits).
Proof.
  intros digits. unfold cleaned. fold digits.
  destruct (Z.eqb_spec (Py.len digits) 10) as [E|E];
    [left; split; [exact E | reflexivity] |].
  destruct (Z.eqb_spec (Py.len digits) 11) as [E'|E'].
  - destruct (Py.startswith digits "1") eqn:P; simpl.
    + right. left. repeat split; assumption.
    + right. right. split; [| reflexivity].
      intros [H | [_ H]]; [exact (E H) | congruence].
  - right. right. split; [| reflexivity].
    intros [H | [H _]]; [exact (E H) | exact (E' H)].
Qed.

Lemma cleaned_plus_digits digits :
  Py.join_filter Py.isdigit digits = digits →
  Py.len digits = 11 → Py.startswith digits "1" = true →
  cleaned (String "+" digits) = String "+" digits.
Proof.
  intros Hd Hl Hs. unfold cleaned.
  change (Py.join_filter Py.isdigit (String "+" digits))
    with (Py.join_filter Py.isdigit digits).
  rewrite Hd, Hl, Hs. reflexivity.
Qed.

Lemma cleaned_idem phone : cleaned (cleaned phone) = cleaned phone.
Proof.
  pose proof (join_filter_idem Py.isdigit phone) as Hd.
  destruct (cleaned_cases phone)
    as [[Hl ->] | [(Hl & Hs & ->) | [Hn ->]]].
  - apply (cleaned_plus_digits (String "1" _)).
    + change (Py.join_filter Py.isdigit
                (String "1" (Py.join_filter Py.isdigit phone)))
        with (String "1" (Py.join_filter Py.isdigit
                            (Py.join_filter Py.isdigit phone))).
      rewrite Hd. reflexivity.
    + rewrite len_String, Hl. reflexivity.
    + apply startswith_one.
  - apply cleaned_plus_digits; assumption.
  - unfold cleaned. rewrite Hd.
    destruct (recognised_dec (Py.join_filter Py.isdigit phone))
      as [H | [-> ->]]; [contradiction | reflexivity].
Qed.

Lemma cleaned_normalize_phone phone :
  cleaned (SipCallHandler._normalize_phone phone) = cleaned phone.
Proof.
  unfold SipCallHandler._normalize_phone.
  destruct phone as [|c rest]; [reflexivity |].
  cbn [Py.truthy negb].
  pose proof (cleaned_idem (String c rest)) as Hidem.
  destruct (cleaned_cases (String c rest))
    as [[Hl Hc] | [(Hl & Hs & Hc) | [Hn Hc]]].
  - rewrite Hl. cbn [Z.eqb Pos.eqb].
    change ("+1" +:+ Py.join_filter Py.isdigit (String c rest))
      with (String "+" (String "1" (Py.join_filter Py.isdigit (String c rest)))).
    rewrite <- Hc. exact Hidem.
  - rewrite Hl, Hs. cbn [Z.eqb Pos.eqb andb].
    change ("+" +:+ Py.join_filter Py.isdigit (String c rest))
      with (String "+" (Py.join_filter Py.isdigit (String c rest))).
    rewrite <- Hc. exact Hidem.
  - destruct (recognised_dec (Py.join_filter Py.isdigit (String c rest)))
      as [H | [-> ->]]; [contradiction | reflexivity].
Qed.

Lemma normalize_plus_digits digits :
  Py.join_filter Py.isdigit digits = digits →
  Py.len digits = 11 → Py.startswith digits "1" = true →
  SipCallHandler._normalize_phone (String "+" digits) = String "+" digits.
Proof.
  intros Hd Hl Hs. unfold SipCallHandler._normalize_phone.
  cbn [Py.truthy negb].
  change (Py.join_filter Py.isdigit (String "+" digits))
    with (Py.join_filter Py.isdigit digits).
  rewrite Hd, Hl, Hs. reflexivity.
Qed.

Lemma normalize_cases c rest :
  let phone := String c rest in
  let digits := Py.join_filter Py.isdigit phone in
  (Py.len digits = 10
   ∧ SipCallHandler._normalize_phone phone = String "+" (String "1" digits))
  ∨ (Py.len digits = 11 ∧ Py.startswith digits "1" = true
     ∧ SipCallHandler._normalize_phone phone = String "+" digits)
  ∨ SipCallHandler._normalize_phone phone = phone.
Proof.
  intros phone digits. unfold SipCallHandler._normalize_phone.
  cbn [Py.truthy negb phone]. fold phone. fold digits.
  destruct (Z.eqb_spec (Py.len digits) 10) as [E|E];
    [left; split; [exact E | reflexivity] |].
  destruct (Z.eqb_spec (Py.len digits) 11) as [E'|E'].
  - destruct (Py.startswith digits "1") eqn:P; simpl.
    + right. left. repeat split; assumption.
    + right. right. reflexivity.
  - right. right. reflexivity.
Qed.

End PhoneAgain.

(** X8. The phone rule of [update_customer_phone] is idempotent: storing
    a phone that the tool has stored before leaves it as it is, whatever the
    store and the session. *)
Theorem stored_phone_idempotent
    (phone : string) (fb fb' : FirebaseManager.t) (u u' : UserData) :
  stored_phone (stored_phone phone fb u) fb' u' = stored_phone phone fb u.
Proof. rewrite !stored_phone_cleaned. apply cleaned_idem. Qed.

(** X9. Passing a number first through the SIP handler's
    [_normalize_phone] and then to [update_customer_phone] stores the same
    phone as passing it to the tool directly; on the two recognised shapes
    the two functions return the same string. *)
Theorem phone_tool_agrees_with_sip_handler
    (phone : string) (fb : FirebaseManager.t) (u : UserData) :
  stored_phone (SipCallHandler._normalize_phone phone) fb u
  = stored_phone phone fb u
  ∧ (recognised (Py.join_filter Py.isdigit phone) →
     stored_phone phone fb u = SipCallHandler._normalize_phone phone).
Proof.
  rewrite !stored_phone_cleaned. split; [apply cleaned_normalize_phone |].
  intros Hrec. unfold cleaned, SipCallHandler._normalize_phone.
  destruct phone as [|c rest].
  - destruct Hrec as [H | [H _]]; discriminate H.
  - cbn [Py.truthy negb].
    destruct Hrec as [H | [H1 H2]].
    + rewrite H. reflexivity.
    + rewrite H1, H2. reflexivity.
Qed.

Lemma phone_tool_agrees_with_sip_handler_witness :
  recognised (Py.join_filter Py.isdigit "(555) 123-4567")
  ∧ stored_phone "(555) 123-4567" (empty_store true) fresh_session
    = SipCallHandler._normalize_phone "(555) 123-4567".
Proof.
  assert (H : recognised (Py.join_filter Py.isdigit "(555) 123-4567"))
    by (left; reflexivity).
  split; [exact H |].
  exact (proj2 (phone_tool_agrees_with_sip_handler "(555) 123-4567"
                  (empty_store true) fresh_session) H).
Defined.

(** X10. A phone stored by [update_customer_phone] is either ["+1"]
    followed by ten digits, or a string of digits only that has neither of
    the two recognised shapes; it never contains a character that is
    neither a digit nor that leading plus. *)
Theorem stored_phone_shape
    (phone : string) (fb : FirebaseManager.t) (u : UserData) :
  (∃ ten, stored_phone phone fb u = "+1" +:+ ten
          ∧ Py.len ten = 10 ∧ only_digits ten)
  ∨ (only_digits (stored_phone phone fb u)
     ∧ ¬ recognised (stored_phone phone fb u)).
Proof.
  rewrite stored_phone_cleaned.
  assert (Hdig : only_digits (Py.join_filter Py.isdigit phone)).
  { intros c Hc. exact (proj1 (join_filter_only _ _ _ Hc)). }
  destruct (cleaned_cases phone)
    as [[Hl ->] | [(Hl & Hs & ->) | [Hn ->]]].
  - left. exists (Py.join_filter Py.isdigit phone).
    split; [reflexivity |]. split; [exact Hl | exact Hdig].
  - left. revert Hl Hs Hdig.
    generalize (Py.join_filter Py.isdigit phone). intros d Hl Hs Hdig.
    apply startswith_one_inv in Hs as [rest ->].
    exists rest. split; [reflexivity |]. split.
    + rewrite len_String in Hl. lia.
    + intros c' Hc'. apply Hdig. right. exact Hc'.
  - right. split; [exact Hdig | exact Hn].
Qed.

(** X11. [_normalize_phone] never returns the empty string (an empty
    input becomes ["unknown"]) and is idempotent. *)
Theorem normalize_phone_idempotent (phone : string) :
  SipCallHandler._normalize_phone phone ≠ ""
  ∧ SipCallHandler._normalize_phone (SipCallHandler._normalize_phone phone)
    = SipCallHandler._normalize_phone phone.
Proof.
  destruct phone as [|c rest]; [split; [discriminate | reflexivity] |].
  pose proof (join_filter_idem Py.isdigit (String c rest)) as Hd.
  destruct (normalize_cases c rest)
    as [[Hl ->] | [(Hl & Hs & ->) | Hc]].
  - split; [discriminate |].
    apply (normalize_plus_digits (String "1" _)).
    + change (Py.join_filter Py.isdigit
                (String "1" (Py.join_filter Py.isdigit (String c rest))))
        with (String "1" (Py.join_filter Py.isdigit
                            (Py.join_filter Py.isdigit (String c rest)))).
      rewrite Hd. reflexivity.
    + rewrite len_String, Hl. reflexivity.
    + apply startswith_one.
  - split; [discriminate |]. apply normalize_plus_digits; assumption.
  - rewrite !Hc. split; [discriminate | reflexivity].
Qed.

(** ** What the phone tool changes besides the phone *)

(** X12. [update_customer_phone] never touches the email, the draft
    order and its total, the reservation, the payment method or the special
    instructions, and never replaces a name the session already has.  When
    the store has no record for the cleaned phone, or cannot be reached,
    the phone is the only field that changes; when it has one, loyalty
    points, order history and preferences are taken from the record. *)
Theorem update_customer_phone_frame
    (phone : string) (fb : FirebaseManager.t) (u : UserData) :
  let u' := (update_customer_phone phone fb u).2 in
  (customer_email u' = customer_email u
   ∧ current_order u' = current_order u
   ∧ order_total u' = order_total u
   ∧ reservation_date u' = reservation_date u
   ∧ reservation_time u' = reservation_time u
   ∧ party_size u' = party_size u
   ∧ payment_method u' = payment_method u
   ∧ special_instructions u' = special_instructions u)
  ∧ (customer_name u ≠ "" → customer_name u' = customer_name u)
  ∧ (FirebaseManager.get_customer_data fb (cleaned phone) = None →
     u' = set_customer_phone (cleaned phone) u)
  ∧ (∀ cd, FirebaseManager.get_customer_data fb (cleaned phone) = Some cd →
       loyalty_points u' = default 0 (cd_loyalty_points cd)
       ∧ order_history u' = cd_recent_orders cd
       ∧ customer_preferences u' = cd_preferences cd).
Proof.
  intros u'. subst u'. unfold update_customer_phone.
  change (FirebaseManager.get_customer_data fb _)
    with (FirebaseManager.get_customer_data fb (cleaned phone)).
  destruct (FirebaseManager.get_customer_data fb (cleaned phone)) as [cd|].
  - split; [| split; [| split; [discriminate |]]].
    + destruct (cd_name cd) as [name|]; simpl;
        [destruct (_ && _) |]; repeat split; reflexivity.
    + intros Hname. destruct (cd_name cd) as [name|]; simpl; [| reflexivity].
      assert (Ht : Py.truthy (customer_name u) = true)
        by (destruct (customer_name u); [congruence | reflexivity]).
      rewrite Ht. reflexivity.
    + intros cd' [= <-].
      destruct (cd_name cd) as [name|]; simpl;
        [destruct (_ && _) |]; repeat split; reflexivity.
  - split; [repeat split; reflexivity |].
    split; [reflexivity |]. split; [reflexivity | discriminate].
Qed.

Lemma update_customer_phone_frame_witness :
  let u := set_customer_name "Sam" fresh_session in
  let record :=
    mkCustomerData (Some "Samuel Doe") (Some 120) [mkOrderDoc None] ∅ in
  let fb :=
    FirebaseManager.mk true ∅ {[ "+15551234567" := record ]} [] [] in
  customer_name (update_customer_phone "555-123-4567" fb u).2 = "Sam"
  ∧ loyalty_points (update_customer_phone "555-123-4567" fb u).2 = 120
  ∧ (update_customer_phone "555-1234" fb u).2
    = set_customer_phone "5551234" u.
Proof.
  intros u record fb.
  destruct (update_customer_phone_frame "555-123-4567" fb u)
    as (_ & Hname & _ & Hrec).
  destruct (update_customer_phone_frame "555-1234" fb u)
    as (_ & _ & Hnone & _).
  split; [apply Hname; discriminate |].
  split; [exact (proj1 (Hrec record eq_refl)) |].
  apply Hnone. reflexivity.
Defined.

(** ** Hints and gates *)

Section Gates.
Import ConfirmationAgent.

Implicit Types (fb : FirebaseManager.t) (u : UserData).

Lemma confirm_order_ready order_id now fb u :
  Py.truthy (customer_name u) && Py.truthy (customer_phone u)
  && bool_decide (current_order u ≠ []) = true →
  confirm_order order_id now fb u = (RText apology, u, fb).
Proof.
  intros G. unfold confirm_order, confirm_order_try. rewrite G.
  apply andb_true_iff in G as [_ G]. apply bool_decide_eq_true in G.
  cbn [negb]. rewrite (mapM_order_item_of_raises _ G). reflexivity.
Qed.

Lemma confirm_order_not_ready order_id now fb u :
  Py.truthy (customer_name u) && Py.truthy (customer_phone u)
  && bool_decide (current_order u ≠ []) = false →
  confirm_order order_id now fb u = (RText order_incomplete, u, fb).
Proof.
  intros G. unfold confirm_order, confirm_order_try. rewrite G. reflexivity.
Qed.

Lemma run_current_order u ms :
  current_order (run u ms) = current_order u ++ lines_of ms.
Proof.
  unfold run, lines_of. revert u.
  induction ms as [|m ms IH]; intros u; simpl.
  - rewrite app_nil_r. reflexivity.
  - rewrite IH. destruct m; simpl.
    + rewrite <- app_assoc. reflexivity.
    + reflexivity.
Qed.

Lemma run_payment_method u ms :
  payment_method (run u ms) = last_method (payment_method u) ms.
Proof.
  unfold run, last_method. revert u.
  induction ms as [|m ms IH]; intros u; simpl; [reflexivity |].
  rewrite IH. destruct m; reflexivity.
Qed.

Lemma run_identity u ms :
  customer_name (run u ms) = customer_name u
  ∧ customer_phone (run u ms) = customer_phone u
  ∧ customer_email (run u ms) = customer_email u.
Proof.
  unfold run. revert u.
  induction ms as [|m ms IH]; intros u; simpl; [repeat split |].
  destruct (IH (apply_mutation u m)) as (-> & -> & ->).
  destruct m; repeat split.
Qed.

End Gates.

(** X14. The hint of the order agent and the gate of [confirm_order] test
    the same condition: [_handoff_if_done] is silent exactly when
    [confirm_order] answers with its refusal. *)
Theorem order_hint_matches_gate
    (order_id : string) (now : Z) (fb : FirebaseManager.t) (u : UserData) :
  OrderAgent._handoff_if_done u = RNone
  ↔ ConfirmationAgent.confirm_order order_id now fb u
    = (RText ConfirmationAgent.order_incomplete, u, fb).
Proof.
  unfold OrderAgent._handoff_if_done.
  destruct (Py.truthy (customer_name u) && Py.truthy (customer_phone u)
            && bool_decide (current_order u ≠ [])) eqn:G.
  - rewrite (confirm_order_ready _ _ _ _ G). split; discriminate.
  - rewrite (confirm_order_not_ready _ _ _ _ G). split; reflexivity.
Qed.

(** X15. The same for reservations: the reservation agent's
    [_handoff_if_done] is silent exactly when the confirmation agent's
    [confirm_reservation] answers with its refusal. *)
Theorem reservation_hint_matches_gate
    (reservation_id : string) (now : Z) (fb : FirebaseManager.t)
    (u : UserData) :
  ReservationAgent._handoff_if_done u = RNone
  ↔ (ConfirmationAgent.confirm_reservation reservation_id now fb u).1.1
    = RText ConfirmationAgent.reservation_incomplete.
Proof.
  unfold ReservationAgent._handoff_if_done,
    ConfirmationAgent.confirm_reservation,
    ConfirmationAgent.confirm_reservation_try.
  destruct (Py.truthy (customer_name u) && Py.truthy (customer_phone u)
            && Py.truthy (reservation_date u)
            && Py.truthy (reservation_time u) && (0 <? party_size u));
    simpl; split; try discriminate; reflexivity.
Qed.

(** X16. Once the reservation agent has given its hint and the store
    accepts writes, [confirm_reservation] appends exactly one document,
    carrying the session's name, phone, date, time and party size, and
    changes nothing else.  The session is left as it was, so a second call
    appends a second document. *)
Theorem confirm_reservation_saves_one_document
    (reservation_id reservation_id' : string) (now now' : Z)
    (fb : FirebaseManager.t) (u : UserData) :
  ReservationAgent._handoff_if_done u ≠ RNone →
  FirebaseManager.db_up fb = true →
  let r := ConfirmationAgent.confirm_reservation reservation_id now fb u in
  r.1.1 = RText ConfirmationAgent.reservation_saved
  ∧ r.1.2 = u
  ∧ FirebaseManager.reservations r.2
    = FirebaseManager.reservations fb
      ++ [reservation_doc_of reservation_id now u]
  ∧ FirebaseManager.orders r.2 = FirebaseManager.orders fb
  ∧ FirebaseManager.reservations
      (ConfirmationAgent.confirm_reservation reservation_id' now' r.2
         r.1.2).2
    = FirebaseManager.reservations fb
      ++ [reservation_doc_of reservation_id now u;
          reservation_doc_of reservation_id' now' u].
Proof.
  intros Hhint Hup r. subst r.
  unfold ReservationAgent._handoff_if_done in Hhint.
  unfold ConfirmationAgent.confirm_reservation,
    ConfirmationAgent.confirm_reservation_try,
    FirebaseManager.save_reservation.
  destruct (Py.truthy (customer_name u) && Py.truthy (customer_phone u)
            && Py.truthy (reservation_date u)
            && Py.truthy (reservation_time u) && (0 <? party_size u)) eqn:G;
    [| contradiction].
  rewrite Hup. cbn [negb fst snd]. rewrite G. cbn [negb fst snd].
  cbn [FirebaseManager.db_up FirebaseManager.reservations
       FirebaseManager.orders].
  repeat split; try reflexivity.
  rewrite <- app_assoc. reflexivity.
Qed.

Lemma confirm_reservation_saves_one_document_witness :
  (ConfirmationAgent.confirm_reservation "r-1" 7 (empty_store true)
     sam_reservation_session).1.1
  = RText ConfirmationAgent.reservation_saved
  ∧ FirebaseManager.reservations
      (ConfirmationAgent.confirm_reservation "r-1" 7 (empty_store true)
         sam_reservation_session).2
    = [reservation_doc_of "r-1" 7 sam_reservation_session].
Proof.
  assert (Hhint : ReservationAgent._handoff_if_done sam_reservation_session
                  ≠ RNone) by discriminate.
  assert (Hup : FirebaseManager.db_up (empty_store true) = true)
    by reflexivity.
  destruct (confirm_reservation_saves_one_document "r-1" "r-2" 7 8
              (empty_store true) sam_reservation_session Hhint Hup)
    as (Hout & _ & Hres & _).
  split; [exact Hout | exact Hres].
Defined.

(** X17. [confirm_order] never writes to the store, never changes the
    session, never hands off and never returns its success text, whatever
    the session, the store, the identifier and the time. *)
Theorem confirm_order_never_saves
    (order_id : string) (now : Z) (fb : FirebaseManager.t) (u : UserData) :
  let r := ConfirmationAgent.confirm_order order_id now fb u in
  r.2 = fb ∧ r.1.2 = u
  ∧ r.1.1 ≠ RText ConfirmationAgent.order_saved
  ∧ agent_after ConfirmationAgent r.1.1 = ConfirmationAgent.
Proof.
  intros r. subst r.
  destruct (confirm_order_cases order_id now fb u) as [-> | ->];
    repeat split; discriminate.
Qed.

(** X18. The draft order after a sequence of [add_item] and
    [set_payment_method] calls is the former draft followed by one line per
    [add_item] call, in call order and with the quantities as given (none
    is rejected); the payment method is the one of the last
    [set_payment_method] call; name, phone and email are untouched. *)
Theorem draft_order_accumulates (u : UserData) (ms : list Mutation) :
  current_order (run u ms) = current_order u ++ lines_of ms
  ∧ payment_method (run u ms) = last_method (payment_method u) ms
  ∧ customer_name (run u ms) = customer_name u
  ∧ customer_phone (run u ms) = customer_phone u
  ∧ customer_email (run u ms) = customer_email u.
Proof.
  split; [apply run_current_order |].
  split; [apply run_payment_method | apply run_identity].
Qed.

(** X19. [add_item] returns the hint exactly when the session has a name
    and a phone: the draft it has just extended is never empty. *)
Theorem add_item_hint (u : UserData) (item : string) (quantity : Z) :
  (OrderAgent.add_item u item quantity).1 ≠ RNone
  ↔ customer_name u ≠ "" ∧ customer_phone u ≠ "".
Proof.
  unfold OrderAgent.add_item, OrderAgent._handoff_if_done. cbn [fst].
  cbn [customer_name customer_phone current_order set_current_order].
  rewrite (bool_decide_eq_true_2 (current_order u ++ [mkDraftLine item quantity] ≠ []))
    by (destruct (current_order u); discriminate).
  rewrite andb_true_r.
  destruct (customer_name u), (customer_phone u); simpl;
    split; intros H;
    first [ discriminate
          | split; discriminate
          | exfalso; apply H; reflexivity
          | destruct H as [H1 H2]; congruence ].
Qed.

(** ** Committed orders (CustomerOrder) *)

Section Orders.

Implicit Types (items : list OrderItem.t).

Lemma sum_total_price_from items (acc : Q) :
  (fold_left (fun a it => a + OrderItem.total_price it) items acc
   == acc + CustomerOrder.sum_total_price items)%Q.
Proof.
  unfold CustomerOrder.sum_total_price. revert acc.
  induction items as [|it items IH]; intros acc; simpl.
  - ring.
  - rewrite IH, (IH (0 + OrderItem.total_price it)%Q). ring.
Qed.

Lemma sum_total_price_nonneg items :
  Forall (fun it => (0 <= OrderItem.unit_price it)%Q
                    ∧ 0 ≤ OrderItem.quantity it) items →
  (0 <= CustomerOrder.sum_total_price items)%Q.
Proof.
  induction 1 as [|it items [Hp Hq] _ IH].
  - apply Qle_refl.
  - unfold CustomerOrder.sum_total_price. simpl.
    rewrite sum_total_price_from.
    assert (Ht : (0 <= OrderItem.total_price it)%Q).
    { unfold OrderItem.total_price. apply Qmult_le_0_compat; [exact Hp |].
      unfold Qle. simpl. lia. }
    assert (H0 : (0 <= 0 + OrderItem.total_price it)%Q)
      by (rewrite Qplus_0_l; exact Ht).
    replace 0%Q with (0 + 0)%Q at 1 by reflexivity.
    apply Qplus_le_compat; assumption.
Qed.

End Orders.

(** X20. A new [CustomerOrder] is promised no earlier than 20 minutes
    after its order time: exactly 20 minutes for up to four items, five
    minutes per item from four items on. *)
Theorem estimated_ready_time_rule
    (id customer_phone customer_name : string) (items : list OrderItem.t)
    (order_time : Z)
    (status payment_method call_id agent_id special_instructions : string) :
  let order :=
    CustomerOrder.init id customer_phone customer_name items order_time
      status payment_method call_id agent_id special_instructions in
  let n := Z.of_nat (length items) in
  CustomerOrder.order_time order + CustomerOrder.minutes 20
  ≤ CustomerOrder.estimated_ready_time order
  ∧ (n ≤ 4 →
     CustomerOrder.estimated_ready_time order
     = order_time + CustomerOrder.minutes 20)
  ∧ (4 ≤ n →
     CustomerOrder.estimated_ready_time order
     = order_time + CustomerOrder.minutes (5 * n)).
Proof.
  intros order n. subst order. unfold CustomerOrder.init, CustomerOrder.minutes.
  cbn [CustomerOrder.order_time CustomerOrder.estimated_ready_time].
  fold n. repeat split; intros; lia.
Qed.

Lemma estimated_ready_time_rule_witness :
  let it := OrderItem.mk "m1" "Coffee" 1 (7 # 2) [] in
  CustomerOrder.estimated_ready_time
    (CustomerOrder.init "o-1" "+15551234567" "Sam" [it; it] 1000 "pending"
       "cash" "room-1" "" "")
  = 1000 + CustomerOrder.minutes 20
  ∧ CustomerOrder.estimated_ready_time
      (CustomerOrder.init "o-2" "+15551234567" "Sam" [it; it; it; it; it; it]
         1000 "pending" "cash" "room-1" "" "")
    = 1000 + CustomerOrder.minutes 30.
Proof.
  intros it. split.
  - apply (estimated_ready_time_rule "o-1" "+15551234567" "Sam" [it; it] 1000
             "pending" "cash" "room-1" "" ""). simpl. lia.
  - apply (estimated_ready_time_rule "o-2" "+15551234567" "Sam"
             [it; it; it; it; it; it] 1000 "pending" "cash" "room-1" "" "").
    simpl. lia.
Defined.

(** ** Loading the configuration *)

(** X22. [load_config] raises exactly when one of the three API keys is
    unset or empty, and a configuration it returns always passes
    [validate_config]; the optional settings take their defaults when
    unset. *)
Theorem load_config_validates (env : gmap string string) :
  (load_config env = Raise ValueError
   ↔ unset_or_empty (env !! "OPENAI_API_KEY") = true
     ∨ unset_or_empty (env !! "DEEPGRAM_API_KEY") = true
     ∨ unset_or_empty (env !! "CARTESIA_API_KEY") = true)
  ∧ (∀ config, load_config env = Ok config →
       validate_config config = true
       ∧ Some (openai_api_key config) = env !! "OPENAI_API_KEY"
       ∧ Some (deepgram_api_key config) = env !! "DEEPGRAM_API_KEY"
       ∧ Some (cartesia_api_key config) = env !! "CARTESIA_API_KEY"
       ∧ (env !! "OPENAI_MODEL" = None → openai_model config = "gpt-4o-mini")
       ∧ (env !! "FIREBASE_SERVICE_ACCOUNT_PATH" = None →
          firebase_service_account_path config = "service.json")).
Proof.
  unfold load_config.
  destruct (env !! "OPENAI_API_KEY") as [k1|] eqn:E1; simpl;
    [| split; [split; [intros _; left; reflexivity | reflexivity]
              | discriminate]].
  destruct (Py.truthy k1) eqn:T1; simpl;
    [| split; [split; [intros _; left; reflexivity | reflexivity]
              | discriminate]].
  destruct (env !! "DEEPGRAM_API_KEY") as [k2|] eqn:E2; simpl;
    [| split; [split; [intros _; right; left; reflexivity | reflexivity]
              | discriminate]].
  destruct (Py.truthy k2) eqn:T2; simpl;
    [| split; [split; [intros _; right; left; reflexivity | reflexivity]
              | discriminate]].
  destruct (env !! "CARTESIA_API_KEY") as [k3|] eqn:E3; simpl;
    [| split; [split; [intros _; right; right; reflexivity | reflexivity]
              | discriminate]].
  destruct (Py.truthy k3) eqn:T3; simpl;
    [| split; [split; [intros _; right; right; reflexivity | reflexivity]
              | discriminate]].
  split.
  - split; [discriminate | intros [H | [H | H]]; discriminate H].
  - intros config [= <-]. unfold validate_config. simpl.
    rewrite T1, T2, T3. repeat split; try reflexivity.
    + intros ->. reflexivity.
    + intros ->. reflexivity.
Qed.

Lemma load_config_validates_witness :
  let env : gmap string string :=
    {[ "OPENAI_API_KEY" := "sk-1"; "DEEPGRAM_API_KEY" := "dg-1";
       "CARTESIA_API_KEY" := "ct-1" ]} in
  ∃ config, load_config env = Ok config
            ∧ validate_config config = true
            ∧ openai_model config = "gpt-4o-mini".
Proof.
  intros env.
  destruct (load_config env) as [config|e] eqn:E; [| discriminate E].
  exists config. split; [reflexivity |].
  destruct (load_config_validates env) as [_ H].
  destruct (H config E) as (Hv & _ & _ & _ & Hm & _).
  split; [exact Hv | apply Hm; reflexivity].
Defined.

(** ** The session summary *)

Section Summary.

Variable format_2f : Q → string.

Implicit Types (u : UserData) (parts : list string).

Lemma join_head parts p :
  not_N p → not_N (join "; " (p :: parts)).
Proof.
  intros (c & rest & -> & Hc). destruct parts as [|q parts]; simpl.
  - exists c, rest. split; [reflexivity | exact Hc].
  - eexists c, _. split; [reflexivity | exact Hc].
Qed.

Lemma summary_parts_not_N u :
  Forall not_N (summary_parts format_2f u).
Proof.
  unfold summary_parts.
  repeat (apply Forall_app; split);
    match goal with
    | |- Forall _ (if ?b then _ else _) => destruct b
    end;
    repeat constructor; eexists _, _; (split; [reflexivity | discriminate]).
Qed.

Lemma summary_parts_nil u :
  summary_parts format_2f u = [] ↔ nothing_known u.
Proof.
  unfold summary_parts, nothing_known. split.
  - intros H.
    repeat (apply app_eq_nil in H as [? H]).
    repeat match goal with
           | H : (if ?b then _ else _) = [] |- _ =>
               destruct b eqn:?; [discriminate H | clear H]
           end.
    repeat match goal with
           | H : bool_decide _ = false |- _ => apply bool_decide_eq_false in H
           end.
    split; [destruct (customer_name u); [reflexivity | discriminate] |].
    split; [destruct (customer_phone u); [reflexivity | discriminate] |].
    split; [destruct (current_order u); [reflexivity | exfalso; auto] |].
    split.
    { destruct (reservation_date u); [left; reflexivity |].
      destruct (reservation_time u); [right; reflexivity | discriminate]. }
    split; [destruct (order_history u); [reflexivity | exfalso; auto] |].
    apply Z.ltb_ge. assumption.
  - intros (-> & -> & -> & Hr & -> & Hl).
    apply Z.ltb_ge in Hl. rewrite Hl. simpl.
    destruct Hr as [-> | ->]; simpl; [reflexivity |].
    rewrite andb_false_r. reflexivity.
Qed.

End Summary.

(** X23. [summarize] returns "New customer, no prior data" exactly when
    the session has no name, no phone, no draft order, no reservation with
    both date and time, no order history and no loyalty points; any other
    summary differs from that text. *)
Theorem summarize_new_customer_iff (format_2f : Q → string) (u : UserData) :
  summarize format_2f u = new_customer ↔ nothing_known u.
Proof.
  unfold summarize. rewrite <- (summary_parts_nil format_2f).
  pose proof (summary_parts_not_N format_2f u) as Hall.
  destruct (summary_parts format_2f u) as [|p parts].
  - split; reflexivity.
  - split; [| discriminate].
    intros H. exfalso.
    inversion Hall as [|? ? Hp _]; subst.
    destruct (join_head parts p Hp) as (c & rest & E & Hc).
    rewrite E in H. unfold new_customer in H. injection H as Hc' _.
    exact (Hc Hc').
Qed.

(** X24. The summary reports a reservation only when both its date and
    its time are set: with the time missing, neither the date nor the party
    size has any influence on the summary. *)
Theorem summarize_needs_date_and_time
    (format_2f : Q → string) (u : UserData) (date : string) (size : Z) :
  reservation_time u = "" →
  summarize format_2f (set_party_size size (set_reservation_date date u))
  = summarize format_2f u.
Proof.
  intros Ht. unfold summarize, summary_parts. simpl. rewrite Ht. simpl.
  rewrite !andb_false_r. reflexivity.
Qed.

Lemma summarize_needs_date_and_time_witness :
  summarize (fun _ => "0.00")
    (set_party_size 4 (set_reservation_date "2025-06-01" fresh_session))
  = new_customer.
Proof.
  rewrite (summarize_needs_date_and_time (fun _ => "0.00") fresh_session
             "2025-06-01" 4) by reflexivity.
  reflexivity.
Defined.

(** ** The matcher and the strings of an expression *)

Section Regex.
Import Re.

Implicit Types (r : Re.t) (s t : string) (c : ascii).

Lemma app_String c s t : String c s +:+ t = String c (s +:+ t).
Proof. reflexivity. Qed.

Lemma app_empty_l s : "" +:+ s = s.
Proof. reflexivity. Qed.

Lemma app_empty_r s : s +:+ "" = s.
Proof. induction s as [|c s IH]; [reflexivity |]. rewrite app_String, IH. reflexivity. Qed.

Lemma app_assoc_s s t v : (s +:+ t) +:+ v = s +:+ (t +:+ v).
Proof.
  induction s as [|c s IH]; [reflexivity |].
  rewrite !app_String, IH. reflexivity.
Qed.

Lemma app_eq_empty s t : s +:+ t = "" → s = "" ∧ t = "".
Proof. destruct s; [intros H; split; [reflexivity | exact H] | discriminate]. Qed.

Lemma lang_empty_nullable r s : lang r s → s = "" → nullable r = true.
Proof.
  induction 1 as [| | r1 r2 s1 s2 _ IH1 _ IH2 | r1 r2 s _ IH | r1 r2 s _ IH
                  | | ]; intros E; simpl; try reflexivity.
  - discriminate E.
  - apply app_eq_empty in E as [E1 E2]. rewrite IH1, IH2 by assumption.
    reflexivity.
  - rewrite IH by exact E. reflexivity.
  - rewrite IH by exact E. apply orb_true_r.
Qed.

Lemma nullable_lang r : nullable r = true → lang r "".
Proof.
  induction r as [| | p | r1 IH1 r2 IH2 | r1 IH1 r2 IH2 | r IH]; simpl;
    intros H; try discriminate H.
  - constructor.
  - apply andb_true_iff in H as [H1 H2].
    change "" with ("" +:+ ""). constructor; auto.
  - apply orb_true_iff in H as [H | H];
      [apply lang_alt_l | apply lang_alt_r]; auto.
  - constructor.
Qed.

Lemma deriv_sound r : ∀ c s, lang (deriv c r) s → lang r (String c s).
Proof.
  induction r as [| | p | r1 IH1 r2 IH2 | r1 IH1 r2 IH2 | r IH];
    intros c s H; simpl in H.
  - inversion H.
  - inversion H.
  - destruct (p c) eqn:E; inversion H; subst. constructor. exact E.
  - assert (Hcat : ∀ v, lang (Cat (deriv c r1) r2) v →
                        lang (Cat r1 r2) (String c v)).
    { intros v Hv. inversion Hv; subst.
      rewrite <- app_String. constructor; [apply IH1 |]; assumption. }
    destruct (nullable r1) eqn:N; [| apply Hcat; exact H].
    inversion H; subst; [apply Hcat; assumption |].
    change (String c s) with ("" +:+ String c s).
    constructor; [apply nullable_lang; exact N | apply IH2; assumption].
  - inversion H; subst;
      [apply lang_alt_l, IH1 | apply lang_alt_r, IH2]; assumption.
  - inversion H; subst. rewrite <- app_String.
    constructor; [apply IH |]; assumption.
Qed.

Lemma deriv_complete r t :
  lang r t → ∀ c s, t = String c s → lang (deriv c r) s.
Proof.
  induction 1 as [| p c' Hp | r1 r2 s1 s2 H1 IH1 H2 IH2
                  | r1 r2 s' _ IH | r1 r2 s' _ IH
                  | | r s1 s2 H1 IH1 H2 IH2]; intros c s E; simpl.
  - discriminate E.
  - injection E as -> <-. rewrite Hp. constructor.
  - destruct s1 as [|c1 s1'].
    + rewrite (lang_empty_nullable _ _ H1 eq_refl).
      apply lang_alt_r, IH2. exact E.
    + rewrite app_String in E. injection E as -> <-.
      assert (Hc : lang (Cat (deriv c r1) r2) (s1' +:+ s2))
        by (constructor; [apply IH1; reflexivity | exact H2]).
      destruct (nullable r1); [apply lang_alt_l |]; exact Hc.
  - apply lang_alt_l, IH. exact E.
  - apply lang_alt_r, IH. exact E.
  - discriminate E.
  - destruct s1 as [|c1 s1'].
    + apply (IH2 c s). exact E.
    + rewrite app_String in E. injection E as -> <-.
      constructor; [apply IH1; reflexivity | exact H2].
Qed.

(** The matcher decides the strings of the expression. *)
Lemma matches_lang r s : matches r s = true ↔ lang r s.
Proof.
  revert r. induction s as [|c s IH]; intros r; simpl.
  - split; [apply nullable_lang |].
    intros H. exact (lang_empty_nullable _ _ H eq_refl).
  - rewrite IH. split; [apply deriv_sound |].
    intros H. exact (deriv_complete _ _ H c s eq_refl).
Qed.

(** Repetitions of one character class. *)
Lemma lang_star_class p s :
  lang (Star (Class p)) s ↔ PyStr.all_in p s = true.
Proof.
  split.
  - remember (Star (Class p)) as r eqn:Er. intros H.
    induction H as [| | | | | | r' s1 s2 H1 _ _ IH2]; try discriminate Er.
    + reflexivity.
    + injection Er as ->. inversion H1; subst.
      rewrite app_String, app_empty_l. simpl.
      rewrite IH2 by reflexivity.
      match goal with H : p _ = true |- _ => rewrite H end. reflexivity.
  - induction s as [|c s IH]; simpl; intros H; [constructor |].
    apply andb_true_iff in H as [Hc Hs].
    change (String c s) with (String c "" +:+ s).
    constructor; [constructor; exact Hc | apply IH; exact Hs].
Qed.

Lemma lang_plus_class p s :
  lang (plus (Class p)) s ↔ s ≠ "" ∧ PyStr.all_in p s = true.
Proof.
  unfold plus. split.
  - intros H. inversion H as [| | ? ? s1 s2 H1 H2 | | | |]; subst.
    inversion H1; subst. apply lang_star_class in H2.
    rewrite app_String, app_empty_l.
    split; [discriminate |]. simpl.
    match goal with H : p _ = true |- _ => rewrite H end. exact H2.
  - intros [Hne H]. destruct s as [|c s]; [congruence |].
    simpl in H. apply andb_true_iff in H as [Hc Hs].
    change (String c s) with (String c "" +:+ s).
    constructor; [constructor; exact Hc | apply lang_star_class; exact Hs].
Qed.

Lemma lang_at_least_two_class p s :
  lang (at_least_two (Class p)) s
  ↔ (2 ≤ String.length s)%nat ∧ PyStr.all_in p s = true.
Proof.
  unfold at_least_two. split.
  - intros H. inversion H as [| | ? ? s1 s2 Ha Hb | | | |]; subst.
    inversion Ha; subst.
    inversion Hb as [| | ? ? s3 s4 Hc Hd | | | |]; subst.
    inversion Hc; subst. apply lang_star_class in Hd.
    rewrite !app_String, !app_empty_l.
    split; [simpl; lia |]. simpl.
    repeat match goal with H : p _ = true |- _ => rewrite H; clear H end.
    exact Hd.
  - intros [Hl H]. destruct s as [|c [|c' s]]; simpl in Hl; try lia.
    simpl in H. apply andb_true_iff in H as [Hc H].
    apply andb_true_iff in H as [Hc' Hs].
    change (String c (String c' s))
      with (String c "" +:+ (String c' "" +:+ s)).
    repeat constructor; try assumption. apply lang_star_class; exact Hs.
Qed.

Lemma lang_chr c s : lang (chr c) s ↔ s = String c "".
Proof.
  unfold chr. split.
  - intros H. inversion H; subst.
    match goal with H : Ascii.eqb _ _ = true |- _ =>
      apply Ascii.eqb_eq in H; subst end.
    reflexivity.
  - intros ->. constructor. apply Ascii.eqb_refl.
Qed.

(** [$]: the body matches the whole string, or all of it but a final
    newline. *)
Lemma anchored_iff r s :
  anchored r s = true
  ↔ lang r s ∨ ∃ w, s = w +:+ String "010" "" ∧ lang r w.
Proof.
  unfold anchored, dollar, opt. rewrite matches_lang. split.
  - intros H. inversion H as [| | ? ? s1 s2 H1 H2 | | | |]; subst.
    inversion H2; subst.
    + right. exists s1. split; [| exact H1].
      match goal with H : lang (chr _) _ |- _ =>
        apply lang_chr in H; subst end.
      reflexivity.
    + match goal with H : lang Eps _ |- _ => inversion H; subst end.
      left. rewrite app_empty_r. exact H1.
  - intros [H | (w & -> & H)].
    + rewrite <- (app_empty_r s).
      constructor; [exact H | apply lang_alt_r; constructor].
    + constructor; [exact H | apply lang_alt_l, lang_chr; reflexivity].
Qed.

End Regex.

(** ** Email validation *)

Section EmailFacts.
Import Re PyStr Email.

Implicit Types (s t w : string) (c : ascii) (p q : ascii → bool).

Lemma all_in_app p s t : all_in p (s +:+ t) = all_in p s && all_in p t.
Proof.
  induction s as [|c s IH]; [reflexivity |].
  rewrite app_String. simpl. rewrite IH, andb_assoc. reflexivity.
Qed.

Lemma all_in_impl p q s :
  (∀ c, p c = true → q c = true) → all_in p s = true → all_in q s = true.
Proof.
  intros Hpq. induction s as [|c s IH]; simpl; [reflexivity |].
  intros H. apply andb_true_iff in H as [Hc Hs].
  rewrite (Hpq c Hc), IH by exact Hs. reflexivity.
Qed.

Lemma local_char_nonspace c : local_char c = true → nonspace c = true.
Proof. destruct c as [[] [] [] [] [] [] [] []]; vm_compute; congruence. Qed.

Lemma domain_char_nonspace c : domain_char c = true → nonspace c = true.
Proof. destruct c as [[] [] [] [] [] [] [] []]; vm_compute; congruence. Qed.

Lemma letter_nonspace c : letter c = true → nonspace c = true.
Proof. destruct c as [[] [] [] [] [] [] [] []]; vm_compute; congruence. Qed.

Lemma local_char_lower c : local_char (lower_char c) = local_char c.
Proof. destruct c as [[] [] [] [] [] [] [] []]; vm_compute; reflexivity. Qed.

Lemma domain_char_lower c : domain_char (lower_char c) = domain_char c.
Proof. destruct c as [[] [] [] [] [] [] [] []]; vm_compute; reflexivity. Qed.

Lemma letter_lower c : letter (lower_char c) = letter c.
Proof. destruct c as [[] [] [] [] [] [] [] []]; vm_compute; reflexivity. Qed.

Lemma lower_char_idem c : lower_char (lower_char c) = lower_char c.
Proof. destruct c as [[] [] [] [] [] [] [] []]; vm_compute; reflexivity. Qed.

Lemma lower_app s t : lower (s +:+ t) = lower s +:+ lower t.
Proof.
  induction s as [|c s IH]; [reflexivity |].
  rewrite app_String. simpl. rewrite IH. reflexivity.
Qed.

Lemma lower_idem s : lower (lower s) = lower s.
Proof.
  induction s as [|c s IH]; simpl; [reflexivity |].
  rewrite lower_char_idem, IH. reflexivity.
Qed.

Lemma lower_length s : String.length (lower s) = String.length s.
Proof. induction s as [|c s IH]; simpl; [reflexivity | rewrite IH; reflexivity]. Qed.

Lemma lower_nonempty s : s ≠ "" → lower s ≠ "".
Proof. destruct s; [congruence | discriminate]. Qed.

Lemma all_in_lower p s :
  (∀ c, p (lower_char c) = p c) → all_in p (lower s) = all_in p s.
Proof.
  intros Hp. induction s as [|c s IH]; simpl; [reflexivity |].
  rewrite Hp, IH. reflexivity.
Qed.

(** Stripping a string without white space changes nothing. *)
Lemma rstrip_nonspace s : all_in nonspace s = true → rstrip s = s.
Proof.
  induction s as [|c s IH]; simpl; [reflexivity |].
  intros H. apply andb_true_iff in H as [Hc Hs]. rewrite IH by exact Hs.
  destruct s; [| reflexivity].
  unfold nonspace in Hc. apply negb_true_iff in Hc. rewrite Hc. reflexivity.
Qed.

Lemma strip_nonspace s : all_in nonspace s = true → strip s = s.
Proof.
  intros H. unfold strip.
  assert (E : Py.lstrip s = s).
  { destruct s as [|c s]; [reflexivity |]. simpl in *.
    apply andb_true_iff in H as [Hc _].
    unfold nonspace in Hc. apply negb_true_iff in Hc. rewrite Hc.
    reflexivity. }
  rewrite E. apply rstrip_nonspace. exact H.
Qed.

(** A right-stripped string does not end in white space. *)
Lemma rstrip_last s : ∀ w c, rstrip s = w +:+ String c "" → Py.isspace c = false.
Proof.
  induction s as [|a s IH]; intros w c; simpl.
  - destruct w; discriminate.
  - destruct (rstrip s) as [|b r] eqn:E.
    + destruct (Py.isspace a) eqn:Ha; [destruct w; discriminate |].
      destruct w as [|a' w]; [intros [= <-]; exact Ha |].
      rewrite app_String. intros [= _ H]. destruct w; discriminate.
    + destruct w as [|a' w]; [discriminate |].
      rewrite app_String. intros [= _ H]. exact (IH w c H).
Qed.

Lemma strip_no_final_newline s w : strip s ≠ w +:+ String "010" "".
Proof.
  intros H. apply rstrip_last in H. vm_compute in H. discriminate H.
Qed.

(** The expression of the pattern and the address in words. *)
Lemma email_lang s : lang email_pattern s ↔ well_formed s.
Proof.
  unfold email_pattern, well_formed. split.
  - intros H.
    inversion H as [| | ? ? loc s1 Hloc H1 | | | |]; subst.
    inversion H1 as [| | ? ? at_ s2 Hat H2 | | | |]; subst.
    inversion H2 as [| | ? ? dom s3 Hdom H3 | | | |]; subst.
    inversion H3 as [| | ? ? dot tld Hdot Htld | | | |]; subst.
    apply lang_chr in Hat, Hdot. subst.
    apply lang_plus_class in Hloc as [? ?], Hdom as [? ?].
    apply lang_at_least_two_class in Htld as [? ?].
    exists loc, dom, tld. repeat split; assumption.
  - intros (loc & dom & tld & -> & ? & ? & ? & ? & ? & ?).
    constructor; [apply lang_plus_class; split; assumption |].
    change ("@" +:+ dom +:+ "." +:+ tld)
      with (String "@" "" +:+ (dom +:+ String "." "" +:+ tld)).
    constructor; [apply lang_chr; reflexivity |].
    constructor; [apply lang_plus_class; split; assumption |].
    constructor; [apply lang_chr; reflexivity |].
    apply lang_at_least_two_class. split; assumption.
Qed.

Lemma validate_email_iff email :
  _validate_email email = true ↔ well_formed (strip email).
Proof.
  unfold _validate_email. rewrite anchored_iff, <- email_lang. split.
  - intros [H | (w & E & _)]; [exact H |].
    exfalso. exact (strip_no_final_newline _ _ E).
  - intros H. left. exact H.
Qed.

Lemma well_formed_nonspace s : well_formed s → all_in nonspace s = true.
Proof.
  intros (loc & dom & tld & -> & _ & Hl & _ & Hd & _ & Ht).
  rewrite !all_in_app.
  rewrite (all_in_impl _ _ _ local_char_nonspace Hl).
  rewrite (all_in_impl _ _ _ domain_char_nonspace Hd).
  rewrite (all_in_impl _ _ _ letter_nonspace Ht).
  reflexivity.
Qed.

Lemma well_formed_lower s : well_formed s → well_formed (lower s).
Proof.
  intros (loc & dom & tld & -> & Hl0 & Hl & Hd0 & Hd & Ht0 & Ht).
  exists (lower loc), (lower dom), (lower tld).
  rewrite !lower_app.
  split; [reflexivity |].
  split; [apply lower_nonempty; exact Hl0 |].
  split; [rewrite all_in_lower by apply local_char_lower; exact Hl |].
  split; [apply lower_nonempty; exact Hd0 |].
  split; [rewrite all_in_lower by apply domain_char_lower; exact Hd |].
  split; [rewrite lower_length; exact Ht0 |].
  rewrite all_in_lower by apply letter_lower. exact Ht.
Qed.

End EmailFacts.

(** X25. [_validate_email], and with it [update_customer_email], accepts
    an address exactly when, white space at both ends aside, it is a
    non-empty local part of letters, digits and [._%+-], an at sign, a
    non-empty domain of letters, digits, dots and hyphens, a dot and a
    top-level name of at least two letters. *)
Theorem validate_email_accepts_well_formed (email : string) :
  Email._validate_email email = true
  ↔ Email.well_formed (PyStr.strip email).
Proof. apply validate_email_iff. Qed.

(** X26. [update_customer_email] leaves the session untouched and
    returns its fixed advice when the address is refused; when the address
    is accepted, only the email field changes, to the stripped address in
    small letters.  The stored address is in normal form: it is accepted
    again and storing it again stores the same string. *)
Theorem update_customer_email_contract (email : string) (u : UserData) :
  (Email._validate_email email = false →
   Email.update_customer_email email u = (Email.invalid_email, u))
  ∧ (Email._validate_email email = true →
     let stored := PyStr.lower (PyStr.strip email) in
     Email.update_customer_email email u
     = ("Email updated to " +:+ stored, set_customer_email stored u)
     ∧ Email._validate_email stored = true
     ∧ ∀ u', (Email.update_customer_email stored u').2
             = set_customer_email stored u').
Proof.
  unfold Email.update_customer_email.
  change (Re.anchored Email.email_pattern (PyStr.strip email))
    with (Email._validate_email email).
  split; [intros ->; reflexivity |].
  intros Hv. cbv zeta.
  set (stored := PyStr.lower (PyStr.strip email)).
  rewrite Hv. split; [reflexivity |].
  apply validate_email_iff in Hv.
  pose proof (well_formed_lower _ Hv) as Hw. fold stored in Hw.
  pose proof (strip_nonspace _ (well_formed_nonspace _ Hw)) as Hs.
  assert (Hv' : Email._validate_email stored = true)
    by (apply validate_email_iff; rewrite Hs; exact Hw).
  split; [exact Hv' |].
  intros u'.
  change (Re.anchored Email.email_pattern (PyStr.strip stored))
    with (Email._validate_email stored).
  rewrite Hv', Hs. unfold stored at 2. rewrite lower_idem. reflexivity.
Qed.

Lemma update_customer_email_contract_witness :
  Email.update_customer_email "  Sam.Doe@Example.COM " fresh_session
  = ("Email updated to sam.doe@example.com",
     set_customer_email "sam.doe@example.com" fresh_session)
  ∧ Email.update_customer_email "sam at example dot com" fresh_session
    = (Email.invalid_email, fresh_session).
Proof.
  destruct (update_customer_email_contract "  Sam.Doe@Example.COM "
              fresh_session) as [_ Hok].
  destruct (update_customer_email_contract "sam at example dot com"
              fresh_session) as [Hbad _].
  split.
  - exact (proj1 (Hok eq_refl)).
  - exact (Hbad eq_refl).
Defined.

(** ** Runs of tool calls *)

Section Runs.

Variable title : string → string.
Variable format_2f : Q → string.

Implicit Types (s : Session) (call : ToolCall) (u : UserData)
  (fb : FirebaseManager.t) (a : AgentTag).

Lemma kept_same_store u u' fb : order_total u' = order_total u → kept u fb u' fb.
Proof. intros H. repeat split; try reflexivity; exact H. Qed.

Lemma phone_order_total phone fb u :
  order_total (update_customer_phone phone fb u).2 = order_total u.
Proof.
  unfold update_customer_phone.
  destruct (FirebaseManager.get_customer_data fb _) as [cd|]; [| reflexivity].
  destruct (cd_name cd) as [name|]; simpl; [destruct (_ && _) |]; reflexivity.
Qed.

Lemma email_order_total email u :
  order_total (Email.update_customer_email email u).2 = order_total u.
Proof.
  unfold Email.update_customer_email.
  destruct (Re.anchored _ _); reflexivity.
Qed.

Lemma setattr_order_total u attr value :
  order_total (ConfirmationAgent.setattr u attr value) = order_total u.
Proof.
  unfold ConfirmationAgent.setattr.
  repeat match goal with
         | |- context [if ?b then _ else _] => destruct b
         end; reflexivity.
Qed.

Lemma request_correction_ok u field new_value r :
  ConfirmationAgent.request_correction u field new_value = Ok r →
  (∃ text, r.1 = RText text) ∧ order_total r.2 = order_total u.
Proof.
  unfold ConfirmationAgent.request_correction.
  destruct (ConfirmationAgent.field_mapping !! field) as [attr|];
    [| intros [= <-]; split; [eexists; reflexivity | reflexivity]].
  destruct (field =? "party_size")%string.
  - destruct (Py.int new_value); simpl; [| discriminate].
    intros [= <-]. split; [eexists; reflexivity | reflexivity].
  - simpl. intros [= <-]. split; [eexists; reflexivity |].
    apply setattr_order_total.
Qed.

Lemma confirm_reservation_kept reservation_id now fb u :
  let r := ConfirmationAgent.confirm_reservation reservation_id now fb u in
  (∃ text, r.1.1 = RText text) ∧ r.1.2 = u ∧ kept u fb r.1.2 r.2.
Proof.
  unfold ConfirmationAgent.confirm_reservation,
    ConfirmationAgent.confirm_reservation_try,
    FirebaseManager.save_reservation.
  destruct (negb _); simpl.
  - split; [eexists; reflexivity |]. split; [reflexivity |].
    apply kept_same_store. reflexivity.
  - split; [eexists; reflexivity |]. split; [reflexivity |].
    destruct (FirebaseManager.db_up fb) eqn:E; simpl.
    + repeat split; try reflexivity;
        [simpl; symmetry; exact E | simpl; rewrite length_app; lia].
    + apply kept_same_store. reflexivity.
Qed.

(** One invocation: what it keeps, and whether it hands off. *)
Lemma invoke_facts call u fb out u' fb' :
  invoke title format_2f call u fb = Ok (out, u', fb') →
  kept u fb u' fb'
  ∧ ((∃ text, out = RText text) ∨ out = RNone
     ∨ (∃ next, out = RAgent next
                ∧ same_but_intent u u' ∧ fb' = fb
                ∧ ∀ a, offers a call = true → (rank a < rank next)%nat)).
Proof.
  destruct call; cbn [invoke fst snd].
  - intros [= <- <- <-]. split; [apply kept_same_store; reflexivity |].
    left. eexists; reflexivity.
  - intros [= <- <- <-]. split; [apply kept_same_store, phone_order_total |].
    left. eexists; reflexivity.
  - intros [= <- <- <-]. split; [apply kept_same_store, email_order_total |].
    left. eexists; reflexivity.
  - intros [= <- <- <-]. split; [apply kept_same_store; reflexivity |].
    left. eexists; reflexivity.
  - intros [= <- <- <-]. split; [apply kept_same_store; reflexivity |].
    left. eexists; reflexivity.
  - intros [= <- <- <-]. split; [apply kept_same_store; reflexivity |].
    left. eexists; reflexivity.
  - intros [= <- <- <-]. split; [apply kept_same_store; reflexivity |].
    right. right. exists OrderAgent. repeat split.
    intros a. destruct a; simpl; intros; try discriminate; lia.
  - intros [= <- <- <-]. split; [apply kept_same_store; reflexivity |].
    right. right. exists ReservationAgent. repeat split.
    intros a. destruct a; simpl; intros; try discriminate; lia.
  - intros [= <- <- <-]. split; [apply kept_same_store; reflexivity |].
    unfold OrderAgent.add_item, OrderAgent._handoff_if_done. cbn [fst].
    destruct (_ && _); [left; eexists; reflexivity | right; left; reflexivity].
  - intros [= <- <- <-]. split; [apply kept_same_store; reflexivity |].
    unfold OrderAgent.set_payment_method, OrderAgent._handoff_if_done.
    cbn [fst].
    destruct (_ && _); [left; eexists; reflexivity | right; left; reflexivity].
  - intros [= <- <- <-]. split; [apply kept_same_store; reflexivity |].
    right. right. exists ConfirmationAgent. repeat split.
    intros a. destruct a; simpl; intros; try discriminate; lia.
  - intros [= <- <- <-]. split; [apply kept_same_store; reflexivity |].
    unfold ReservationAgent.set_reservation_details,
      ReservationAgent._handoff_if_done. cbn [fst].
    destruct (_ && _); [left; eexists; reflexivity | right; left; reflexivity].
  - intros [= <- <- <-]. split; [apply kept_same_store; reflexivity |].
    right. right. exists ConfirmationAgent. repeat split.
    intros a. destruct a; simpl; intros; try discriminate; lia.
  - intros [= H].
    destruct (confirm_order_cases order_id now fb u) as [E | E];
      rewrite E in H; inversion H; subst;
      (split; [apply kept_same_store; reflexivity | left; eexists; reflexivity]).
  - intros [= H].
    destruct (confirm_reservation_kept reservation_id now fb u)
      as ((text & Ht) & Hu & Hk).
    rewrite H in Ht, Hu, Hk. simpl in Ht, Hu, Hk. subst u'.
    split; [exact Hk | left; exists text; exact Ht].
  - destruct (ConfirmationAgent.request_correction u field new_value)
      as [r|e] eqn:E; simpl; [| discriminate].
    intros [= <- <- <-].
    destruct (request_correction_ok _ _ _ _ E) as [(text & Ht) Ho].
    split; [apply kept_same_store; exact Ho | left; exists text; exact Ht].
  - intros [= <- <- <-]. split; [apply kept_same_store; reflexivity |].
    left. eexists; reflexivity.
Qed.

Lemma step_cases s call :
  step title format_2f s call = s
  ∨ ∃ out u' fb',
      offers (agent s) call = true
      ∧ invoke title format_2f call (userdata s) (store s) = Ok (out, u', fb')
      ∧ step title format_2f s call
        = mkSession (agent_after (agent s) out) u' fb'.
Proof.
  unfold step. destruct (offers (agent s) call) eqn:O; [| left; reflexivity].
  destruct (invoke title format_2f call (userdata s) (store s))
    as [[[out u'] fb']|e] eqn:E; [| left; reflexivity].
  right. exists out, u', fb'. repeat split.
Qed.

Lemma step_rank s call :
  (rank (agent s) ≤ rank (agent (step title format_2f s call)))%nat.
Proof.
  destruct (step_cases s call) as [-> | (out & u' & fb' & O & E & ->)];
    [lia |].
  destruct (invoke_facts _ _ _ _ _ _ E)
    as [_ [(text & ->) | [-> | (next & -> & _ & _ & Hr)]]]; simpl;
    [lia | lia |].
  specialize (Hr _ O). lia.
Qed.

Lemma step_kept s call :
  kept (userdata s) (store s)
    (userdata (step title format_2f s call))
    (store (step title format_2f s call)).
Proof.
  destruct (step_cases s call) as [-> | (out & u' & fb' & O & E & ->)].
  - apply kept_same_store. reflexivity.
  - exact (proj1 (invoke_facts _ _ _ _ _ _ E)).
Qed.

Lemma kept_trans u fb u1 fb1 u2 fb2 :
  kept u fb u1 fb1 → kept u1 fb1 u2 fb2 → kept u fb u2 fb2.
Proof.
  intros (A1 & A2 & A3 & A4 & A5 & A6) (B1 & B2 & B3 & B4 & B5 & B6).
  repeat split; try congruence. lia.
Qed.

End Runs.





(** X29. No run of tool calls ever stores an order or changes the
    draft total: along every run the [orders] collection, the menu cache
    and the customer records stay as they were, [order_total] keeps its
    value, and reservations are only ever added. *)
Theorem runs_never_store_an_order
    (title : string → string) (format_2f : Q → string)
    (s : Session) (calls : list ToolCall) :
  let s' := steps title format_2f s calls in
  order_total (userdata s') = order_total (userdata s)
  ∧ FirebaseManager.orders (store s') = FirebaseManager.orders (store s)
  ∧ FirebaseManager.menu_items (store s')
    = FirebaseManager.menu_items (store s)
  ∧ FirebaseManager.customers (store s')
    = FirebaseManager.customers (store s)
  ∧ FirebaseManager.db_up (store s') = FirebaseManager.db_up (store s)
  ∧ (length (FirebaseManager.reservations (store s))
     ≤ length (FirebaseManager.reservations (store s')))%nat.
Proof.
  intros s'. subst s'. unfold steps. revert s.
  induction calls as [|call calls IH]; intros s; simpl.
  - repeat split; reflexivity || lia.
  - exact (kept_trans _ _ _ _ _ _
             (step_kept title format_2f s call)
             (IH (step title format_2f s call))).
Qed.

(** ** Printing an integer and reading it back *)

Section IntOfStr.

Implicit Types (x : N) (s : string) (acc : Z) (prev : bool).

Lemma pretty_N_char_digit x :
  (x < 10)%N →
  Py.isdecimal (pretty_N_char x) = true
  ∧ Py.digit_value (pretty_N_char x) = Z.of_N x.
Proof.
  intros H.
  assert (x = 0 ∨ x = 1 ∨ x = 2 ∨ x = 3 ∨ x = 4 ∨ x = 5 ∨ x = 6 ∨ x = 7
          ∨ x = 8 ∨ x = 9)%N as Hx by lia.
  repeat (destruct Hx as [-> | Hx]; [split; reflexivity |]).
  subst. split; reflexivity.
Qed.

(** Reading the digits that [pretty_N_go] puts in front of [s] shifts the
    number read so far by as many places and adds [x]. *)
Lemma digits_from_pretty_N_go x :
  (0 < x)%N →
  ∃ k : Z, 0 < k ∧ ∀ s acc prev,
    Py.digits_from prev acc (pretty_N_go x s)
    = Py.digits_from true (acc * 10 ^ k + Z.of_N x) s.
Proof.
  induction (N.lt_wf_0 x) as [x _ IH]. intros Hx.
  destruct (pretty_N_char_digit (x `mod` 10)) as [Hd Hv];
    [apply N.mod_lt; lia |].
  destruct (N.eq_dec (x `div` 10)%N 0%N) as [E0 | Hne].
  - exists 1. split; [lia |]. intros s acc prev.
    rewrite pretty_N_go_step by exact Hx. rewrite E0, pretty_N_go_0.
    simpl. rewrite Hd, Hv. f_equal.
    pose proof (N.Div0.div_mod x 10) as Hdm. rewrite E0 in Hdm. lia.
  - assert (Hpos : (0 < x `div` 10)%N) by (apply N.neq_0_lt_0; exact Hne).
    destruct (IH (x `div` 10)%N) as (k & Hk & Hgo);
      [apply N.div_lt; [exact Hx | reflexivity] | exact Hpos |].
    exists (k + 1). split; [lia |]. intros s acc prev.
    rewrite pretty_N_go_step by exact Hx. rewrite Hgo.
    simpl. rewrite Hd, Hv. f_equal.
    pose proof (N.Div0.div_mod x 10) as Hdm.
    rewrite Z.pow_add_r by lia. rewrite N2Z.inj_div. 
    assert (Z.of_N x = 10 * (Z.of_N x / 10) + Z.of_N (x `mod` 10)).
    { rewrite N2Z.inj_mod. apply Z.div_mod. lia. }
    change (Z.of_N 10) with 10. lia.
Qed.

Lemma pretty_N_go_head x s :
  (0 < x)%N → ∃ c rest, pretty_N_go x s = String c rest
                        ∧ Py.isdecimal c = true.
Proof.
  revert s. induction (N.lt_wf_0 x) as [x _ IH]. intros s Hx.
  rewrite pretty_N_go_step by exact Hx.
  destruct (N.eq_dec (x `div` 10)%N 0%N) as [E0 | Hne].
  - rewrite E0, pretty_N_go_0. eexists _, _. split; [reflexivity |].
    apply pretty_N_char_digit, N.mod_lt. lia.
  - apply IH; [apply N.div_lt; [exact Hx | reflexivity]
              | apply N.neq_0_lt_0; exact Hne].
Qed.

Lemma int_of_digits c rest :
  Py.isdecimal c = true →
  Py.int (String c rest) = Py.digits_from false 0 (String c rest).
Proof.
  intros H. unfold Py.int.
  destruct c as [[] [] [] [] [] [] [] []]; try discriminate H; reflexivity.
Qed.

Lemma int_pretty_positive (p : positive) :
  Py.int (pretty (Npos p)) = Some (Zpos p)
  ∧ Py.int ("-" +:+ pretty (Npos p)) = Some (Zneg p).
Proof.
  assert (E : pretty (Npos p) = pretty_N_go (Npos p) "") by reflexivity.
  rewrite E.
  destruct (digits_from_pretty_N_go (Npos p)) as (k & _ & Hgo); [lia |].
  destruct (pretty_N_go_head (Npos p) "") as (c & rest & Hs & Hc); [lia |].
  assert (Hd : Py.digits_from false 0 (pretty_N_go (N.pos p) "")
               = Some (Zpos p)).
  { rewrite Hgo. simpl. reflexivity. }
  split.
  - rewrite Hs, int_of_digits by exact Hc. rewrite <- Hs. exact Hd.
  - unfold Py.int. rewrite app_String, app_empty_l.
    change (Py.lstrip (String "-" (pretty_N_go (N.pos p) "")))
      with (String "-" (pretty_N_go (N.pos p) "")).
    cbv iota beta. rewrite Hd. reflexivity.
Qed.

Lemma int_pretty (n : Z) : Py.int (pretty n) = Some n.
Proof.
  destruct n as [|p|p].
  - reflexivity.
  - exact (proj1 (int_pretty_positive p)).
  - exact (proj2 (int_pretty_positive p)).
Qed.

End IntOfStr.

(** X30. Reading back a printed integer gives the integer: [int(str(n))]
    is [n] for every [n] within the interpreter's limit of 4300 digits.  So
    a correction of the party size given as the decimal text of [n] stores
    exactly [n], whatever its sign. *)
Theorem party_size_correction_round_trip (u : UserData) (n : Z) :
  Z.abs n < 10 ^ 4300 →
  Py.int (pretty n) = Some n
  ∧ ConfirmationAgent.request_correction u "party_size" (pretty n)
    = Ok (RText (ConfirmationAgent.correction_done (pretty n)),
          set_party_size n u).
Proof.
  intros _. split; [apply int_pretty |].
  apply request_correction_party_size_int, int_pretty.
Qed.

Lemma party_size_correction_round_trip_witness :
  ConfirmationAgent.request_correction sam_reservation_session "party_size"
    "-3"
  = Ok (RText (ConfirmationAgent.correction_done "-3"),
        set_party_size (-3) sam_reservation_session).
Proof.
  assert (H : Z.abs (-3) < 10 ^ 4300) by (vm_compute; reflexivity).
  exact (proj2 (party_size_correction_round_trip sam_reservation_session
                  (-3) H)).
Defined.

(** ** Phones that pass the validator *)

Section PhoneValidated.
Import Re PyStr Phone.

Implicit Types (s t w : string) (c : ascii) (p : ascii → bool).

Lemma lang_opt_chr c s : lang (opt (chr c)) s ↔ s = "" ∨ s = String c "".
Proof.
  unfold opt. split.
  - intros H. inversion H; subst.
    + right. apply lang_chr. assumption.
    + left. match goal with H : lang Eps _ |- _ => inversion H end.
      reflexivity.
  - intros [-> | ->]; [apply lang_alt_r; constructor |].
    apply lang_alt_l, lang_chr. reflexivity.
Qed.

Lemma lang_opt_class p s :
  lang (opt (Class p)) s → s = "" ∨ ∃ c, s = String c "" ∧ p c = true.
Proof.
  unfold opt. intros H. inversion H; subst.
  - right. match goal with H : lang (Class _) _ |- _ => inversion H; subst end.
    eexists. split; [reflexivity | assumption].
  - left. match goal with H : lang Eps _ |- _ => inversion H end. reflexivity.
Qed.

Lemma lang_exactly_class p n s :
  lang (exactly n (Class p)) s →
  String.length s = n ∧ all_in p s = true.
Proof.
  revert s. induction n as [|n IH]; intros s H; simpl in H.
  - inversion H. split; reflexivity.
  - inversion H as [| | ? ? s1 s2 H1 H2 | | | |]; subst.
    inversion H1; subst. apply IH in H2 as [Hl Ha].
    rewrite app_String, app_empty_l. simpl.
    match goal with H : p _ = true |- _ => rewrite H end.
    rewrite Hl, Ha. split; reflexivity.
Qed.

Lemma join_filter_app p s t :
  Py.join_filter p (s +:+ t) = Py.join_filter p s +:+ Py.join_filter p t.
Proof.
  induction s as [|c s IH]; [reflexivity |].
  rewrite app_String. simpl. destruct (p c); rewrite IH; reflexivity.
Qed.

Lemma length_app_s s t :
  String.length (s +:+ t) = (String.length s + String.length t)%nat.
Proof.
  induction s as [|c s IH]; [reflexivity |].
  rewrite app_String. simpl. rewrite IH. reflexivity.
Qed.

Lemma isspace_not_digit c : Py.isspace c = true → Py.isdigit c = false.
Proof. destruct c as [[] [] [] [] [] [] [] []]; vm_compute; congruence. Qed.

Lemma sep_not_digit c : sep_char c = true → Py.isdigit c = false.
Proof. destruct c as [[] [] [] [] [] [] [] []]; vm_compute; congruence. Qed.

Lemma isdecimal_isdigit c : Py.isdecimal c = true → Py.isdigit c = true.
Proof. destruct c as [[] [] [] [] [] [] [] []]; vm_compute; congruence. Qed.

Lemma join_filter_decimal s :
  all_in Py.isdecimal s = true → Py.join_filter Py.isdigit s = s.
Proof.
  intros H. apply join_filter_fixed.
  induction s as [|c s IH]; simpl in *; [contradiction |].
  apply andb_true_iff in H as [Hc Hs].
  intros c' [<- | Hc']; [apply isdecimal_isdigit; exact Hc | exact (IH Hs c' Hc')].
Qed.

Lemma join_filter_lstrip s :
  Py.join_filter Py.isdigit (Py.lstrip s) = Py.join_filter Py.isdigit s.
Proof.
  induction s as [|c s IH]; simpl; [reflexivity |].
  destruct (Py.isspace c) eqn:E; [| reflexivity].
  rewrite (isspace_not_digit c E). exact IH.
Qed.

Lemma join_filter_rstrip s :
  Py.join_filter Py.isdigit (rstrip s) = Py.join_filter Py.isdigit s.
Proof.
  induction s as [|c s IH]; simpl; [reflexivity |].
  destruct (rstrip s) as [|b r].
  - simpl in IH. rewrite <- IH.
    destruct (Py.isspace c) eqn:E.
    + rewrite (isspace_not_digit c E). reflexivity.
    + simpl. destruct (Py.isdigit c); reflexivity.
  - cbn [Py.join_filter] in *. rewrite IH. reflexivity.
Qed.

Lemma join_filter_strip s :
  Py.join_filter Py.isdigit (strip s) = Py.join_filter Py.isdigit s.
Proof. unfold strip. rewrite join_filter_rstrip. apply join_filter_lstrip. Qed.

(** The digits of a string of the pattern: an optional 1 and ten decimal
    digits. *)
Lemma phone_lang_digits s :
  lang phone_pattern s →
  ∃ one ten,
    Py.join_filter Py.isdigit s = one +:+ ten
    ∧ (one = "" ∨ one = "1")
    ∧ String.length ten = 10%nat ∧ all_in Py.isdecimal ten = true.
Proof.
  unfold phone_pattern, digits. intros H.
  inversion H as [| | ? ? s0 t0 H0 T0 | | | |]; subst; clear H.
  inversion T0 as [| | ? ? s1 t1 H1 T1 | | | |]; subst; clear T0.
  inversion T1 as [| | ? ? s2 t2 H2 T2 | | | |]; subst; clear T1.
  inversion T2 as [| | ? ? s3 t3 H3 T3 | | | |]; subst; clear T2.
  inversion T3 as [| | ? ? s4 t4 H4 T4 | | | |]; subst; clear T3.
  inversion T4 as [| | ? ? s5 t5 H5 T5 | | | |]; subst; clear T4.
  inversion T5 as [| | ? ? s6 t6 H6 T6 | | | |]; subst; clear T5.
  inversion T6 as [| | ? ? s7 t7 H7 T7 | | | |]; subst; clear T6.
  inversion T7 as [| | ? ? s8 t8 H8 T8 | | | |]; subst; clear T7.
  apply lang_opt_chr in H0, H1, H3, H5.
  apply lang_opt_class in H2, H6, H8.
  apply (lang_exactly_class _ 3) in H4 as [L4 A4], H7 as [L7 A7].
  apply (lang_exactly_class _ 4) in T8 as [L8 A8].
  assert (E0 : Py.join_filter Py.isdigit s0 = "")
    by (destruct H0 as [-> | ->]; reflexivity).
  assert (E3 : Py.join_filter Py.isdigit s3 = "")
    by (destruct H3 as [-> | ->]; reflexivity).
  assert (E5 : Py.join_filter Py.isdigit s5 = "")
    by (destruct H5 as [-> | ->]; reflexivity).
  assert (Hsep : ∀ x, x = "" ∨ (∃ c, x = String c "" ∧ sep_char c = true) →
                      Py.join_filter Py.isdigit x = "").
  { intros x [-> | (c & -> & Hc)]; [reflexivity |].
    simpl. rewrite (sep_not_digit c Hc). reflexivity. }
  assert (E1 : Py.join_filter Py.isdigit s1 = s1)
    by (destruct H1 as [-> | ->]; reflexivity).
  exists s1, (s4 +:+ s7 +:+ t8).
  split.
  { rewrite !join_filter_app, E0, E1, (Hsep _ H2), E3, E5, (Hsep _ H6),
      (Hsep _ H8), !join_filter_decimal by assumption.
    rewrite !app_empty_l. reflexivity. }
  split; [exact H1 |]. split.
  - rewrite !length_app_s, L4, L7, L8. reflexivity.
  - rewrite !all_in_app, A4, A7, A8. reflexivity.
Qed.

End PhoneValidated.

(** X13. Every phone that [_validate_phone] accepts is stored by
    [update_customer_phone] in the one canonical form: ["+1"] followed by
    its ten digits, with or without a leading 1 in the input and whatever
    the punctuation. *)
Theorem validated_phone_is_stored_canonically
    (phone : string) (fb : FirebaseManager.t) (u : UserData) :
  Phone._validate_phone phone = true →
  ∃ ten, stored_phone phone fb u = "+1" +:+ ten
         ∧ String.length ten = 10%nat
         ∧ PyStr.all_in Py.isdecimal ten = true.
Proof.
  unfold Phone._validate_phone. intros H.
  apply anchored_iff in H as [H | (w & E & _)];
    [| exfalso; exact (strip_no_final_newline _ _ E)].
  apply phone_lang_digits in H as (one & ten & Hd & Hone & Hl & Ha).
  rewrite join_filter_strip in Hd.
  exists ten. split; [| split; assumption].
  rewrite stored_phone_cleaned. unfold cleaned. rewrite Hd.
  unfold Py.len. rewrite length_app_s, Hl.
  destruct Hone as [-> | ->].
  - reflexivity.
  - change (Z.of_nat (String.length "1" + 10) =? 10) with false.
    change (Z.of_nat (String.length "1" + 10) =? 11) with true.
    change ("1" +:+ ten) with (String "1" ten).
    rewrite startswith_one. reflexivity.
Qed.

Lemma validated_phone_is_stored_canonically_witness :
  Phone._validate_phone " +1 (555) 123.4567 " = true
  ∧ ∃ ten, stored_phone " +1 (555) 123.4567 " (empty_store true)
             fresh_session = "+1" +:+ ten
           ∧ String.length ten = 10%nat
           ∧ PyStr.all_in Py.isdecimal ten = true.
Proof.
  assert (H : Phone._validate_phone " +1 (555) 123.4567 " = true)
    by reflexivity.
  split; [exact H |].
  exact (validated_phone_is_stored_canonically " +1 (555) 123.4567 "
           (empty_store true) fresh_session H).
Defined.

(** ** The menu text *)

Section MenuText.
Import Menu.

Implicit Types (e : MenuEntry) (values processed : list MenuEntry)
  (groups : list (string * list MenuEntry)) (c : string).

Lemma traverse_None {A} (f : A → option string) (l : list A) :
  traverse f l = None ↔ Exists (fun x => f x = None) l.
Proof.
  induction l as [|a l IH]; simpl.
  - split; [discriminate | intros H; inversion H].
  - destruct (f a) eqn:E.
    + destruct (traverse f l).
      * split; [discriminate |]. intros H. inversion H; subst; [congruence |].
        apply IH in H1. discriminate H1.
      * split; [intros _; right; apply IH; reflexivity | reflexivity].
    + split; [intros _; left; exact E | reflexivity].
Qed.

Lemma group_insert_keys_old c e groups :
  c ∈ groups.*1 → (group_insert c e groups).*1 = groups.*1.
Proof.
  induction groups as [|[c' es] rest IH]; intros Hin; [inversion Hin |].
  cbn [group_insert]. rewrite fmap_cons in Hin. cbn [fst] in Hin.
  destruct (decide (c' = c)) as [-> | Hne]; [reflexivity |].
  rewrite !fmap_cons. rewrite IH; [reflexivity |].
  apply elem_of_cons in Hin as [-> | Hin]; [congruence | exact Hin].
Qed.

Lemma group_insert_keys_new c e groups :
  c ∉ groups.*1 → (group_insert c e groups).*1 = groups.*1 ++ [c].
Proof.
  induction groups as [|[c' es] rest IH]; intros Hout; [reflexivity |].
  cbn [group_insert]. rewrite fmap_cons in Hout. cbn [fst] in Hout.
  destruct (decide (c' = c)) as [-> | Hne].
  - exfalso. apply Hout. left.
  - rewrite !fmap_cons. rewrite IH; [reflexivity |].
    intros Hin. apply Hout. right. exact Hin.
Qed.

Lemma group_insert_assoc_same c e groups :
  assoc c (group_insert c e groups)
  = Some (default [] (assoc c groups) ++ [e]).
Proof.
  induction groups as [|[c0 es] rest IH]; simpl.
  - destruct (decide (c = c)); [reflexivity | congruence].
  - destruct (decide (c0 = c)) as [-> | Hne]; simpl.
    + destruct (decide (c = c)); [reflexivity | congruence].
    + destruct (decide (c0 = c)); [congruence | exact IH].
Qed.

Lemma group_insert_assoc_other c e groups c' :
  c' ≠ c → assoc c' (group_insert c e groups) = assoc c' groups.
Proof.
  intros Hne. induction groups as [|[c0 es] rest IH]; simpl.
  - destruct (decide (c = c')); [congruence | reflexivity].
  - destruct (decide (c0 = c)) as [-> | Hne0]; simpl.
    + destruct (decide (c = c')); [congruence | reflexivity].
    + destruct (decide (c0 = c')); [reflexivity | exact IH].
Qed.

Lemma grouped_step processed groups e :
  grouped processed groups →
  grouped (processed ++ [e]) (group_insert (category_of e) e groups).
Proof.
  intros [Hnd Has]. split.
  - destruct (decide (category_of e ∈ groups.*1)) as [Hin | Hout].
    + rewrite group_insert_keys_old by exact Hin. exact Hnd.
    + rewrite group_insert_keys_new by exact Hout.
      apply NoDup_app. split; [exact Hnd |]. split; [| apply NoDup_singleton].
      intros x Hx Hx'. apply list_elem_of_singleton in Hx'. subst. auto.
  - intros c. unfold of_category. rewrite filter_app.
    destruct (decide (c = category_of e)) as [-> | Hne].
    + rewrite group_insert_assoc_same.
      rewrite (filter_cons_True _ e []) by reflexivity. rewrite filter_nil.
      rewrite Has. unfold of_category.
      destruct (filter _ processed); reflexivity.
    + rewrite group_insert_assoc_other by exact Hne.
      rewrite (filter_cons_False _ e []) by congruence.
      rewrite filter_nil, app_nil_r. apply Has.
Qed.

Lemma menu_by_category_grouped values : grouped values (menu_by_category values).
Proof.
  unfold menu_by_category.
  assert (H : ∀ processed groups,
             grouped processed groups →
             grouped (processed ++ values)
               (fold_left (fun G e => group_insert (category_of e) e G)
                  values groups)).
  { induction values as [|e values IH]; intros processed groups Hg; simpl.
    - rewrite app_nil_r. exact Hg.
    - rewrite (cons_middle e processed values), app_assoc.
      apply IH, grouped_step, Hg. }
  apply (H [] []). split; [constructor | reflexivity].
Qed.

Lemma assoc_elem_of c es groups :
  NoDup groups.*1 → (c, es) ∈ groups ↔ assoc c groups = Some es.
Proof.
  induction groups as [|[c' es'] rest IH]; simpl; intros Hnd.
  - split; [intros H; inversion H | discriminate].
  - apply NoDup_cons in Hnd as [Hout Hnd].
    destruct (decide (c' = c)) as [-> | Hne].
    + split.
      * intros H. apply elem_of_cons in H as [[= ->] | H]; [reflexivity |].
        exfalso. apply Hout. apply list_elem_of_fmap. exists (c, es).
        split; [reflexivity | exact H].
      * intros [= ->]. left.
    + rewrite <- (IH Hnd). split.
      * intros H. apply elem_of_cons in H as [[= -> _] | H];
          [congruence | exact H].
      * intros H. right. exact H.
Qed.

(** The groups hold every entry of the cache and nothing else. *)
Lemma grouped_members values e :
  e ∈ values ↔ ∃ g, g ∈ menu_by_category values ∧ e ∈ g.2.
Proof.
  destruct (menu_by_category_grouped values) as [Hnd Has]. split.
  - intros He. specialize (Has (category_of e)). unfold of_category in Has.
    assert (Hin : e ∈ filter (fun e' => category_of e' = category_of e) values)
      by (apply list_elem_of_filter; split; [reflexivity | exact He]).
    destruct (filter _ values) as [|x l] eqn:F; [inversion Hin |].
    exists (category_of e, x :: l). split; [| exact Hin].
    apply assoc_elem_of; assumption.
  - intros ([c es] & Hg & He). simpl in He.
    apply (assoc_elem_of _ _ _ Hnd) in Hg. rewrite Has in Hg.
    unfold of_category in Hg.
    destruct (filter _ values) as [|x l] eqn:F; [discriminate |].
    injection Hg as <-. rewrite <- F in He.
    apply list_elem_of_filter in He. tauto.
Qed.

Lemma get_menu_text_nonempty upper str_price values :
  values ≠ [] →
  get_menu_text upper str_price values
  = match traverse (render_group upper str_price) (menu_by_category values)
    with
    | Some blocks => Some (concat blocks)
    | None => None
    end.
Proof. destruct values; [congruence | reflexivity]. Qed.

End MenuText.

